(** * appelpy.discrete_model: the [Logit] regression-reporting layer

    A shallow embedding of [appelpy/discrete_model.py] and of the parts of
    numpy, pandas and statsmodels the class calls, followed by the
    properties of the class that the specification states.

    Numbers.  The program computes on IEEE binary64 values.  The code is
    embedded once, over a scalar interface [Scalar]; the interface has two
    instances: [float_scalar] (Rocq's primitive binary64 floats, with NaN
    and the IEEE comparisons) and [real_scalar] (exact real arithmetic, used
    where the specification states an algebraic identity "to floating
    tolerance").

    External collaborators.  The maximum-likelihood solver
    ([sm.Logit(...).fit()]) and [np.exp] are taken as parameters
    ([Logit_fit], [np_exp]) of the development. *)

From Stdlib Require Import List ZArith String Bool Lia Permutation.
From Stdlib Require Import Reals Lra.
From Stdlib Require Import Floats.
Import ListNotations.

Local Open Scope string_scope.
Local Open Scope list_scope.
Local Open Scope nat_scope.

#[local] Arguments String.eqb : simpl never.

(** ** Exceptions and fallible computations *)

Inductive exn : Type :=
| TypeError (msg : string)
| ValueError (msg : string)
| IndexError (msg : string)
| KeyError (msg : string)
| OverflowError (msg : string)
| FitError (msg : string).

Inductive result (T : Type) : Type :=
| Ok (v : T)
| Raise (e : exn).

Arguments Ok {T} v.
Arguments Raise {T} e.

Definition bind {T U : Type} (c : result T) (k : T -> result U) : result U :=
  match c with
  | Ok v => k v
  | Raise e => Raise e
  end.

Notation "x <- c ;; k" := (bind c (fun x => k))
  (at level 61, c at next level, right associativity).

Fixpoint mapM {T U : Type} (f : T -> result U) (l : list T) : result (list U) :=
  match l with
  | [] => Ok []
  | x :: l' => y <- f x ;; ys <- mapM f l' ;; Ok (y :: ys)
  end.

Definition is_ok {T : Type} (c : result T) : bool :=
  match c with Ok _ => true | Raise _ => false end.

(** ** Scalars *)

Class Scalar (A : Type) : Type := {
  s_nan : A;
  s_isnan : A -> bool;
  s_le : A -> A -> bool;       (* x <= y, False as soon as one side is NaN *)
  s_lt : A -> A -> bool;       (* x < y, same convention *)
  s_eq : A -> A -> bool;       (* x == y, same convention *)
  s_zero : A;
  s_one : A;
  s_lit_0_1 : A;               (* the literal 0.1 *)
  s_pi : A;                    (* np.pi *)
  s_of_nat : nat -> A;
  s_opp : A -> A;
  s_add : A -> A -> A;
  s_sub : A -> A -> A;
  s_mul : A -> A -> A;
  s_div : A -> A -> A;
  s_sqrt : A -> A
}.

(** binary64, as numpy and Python's [float] have it. *)
#[export] Instance float_scalar : Scalar float := {
  s_nan := PrimFloat.nan;
  s_isnan := PrimFloat.is_nan;
  s_le := PrimFloat.leb;
  s_lt := PrimFloat.ltb;
  s_eq := PrimFloat.eqb;
  s_zero := PrimFloat.zero;
  s_one := PrimFloat.one;
  s_lit_0_1 := 0x1.999999999999ap-4%float;   (* the double written 0.1 *)
  s_pi := 0x1.921fb54442d18p+1%float;
  s_of_nat := fun n => PrimFloat.of_uint63 (Uint63.of_Z (Z.of_nat n));
  s_opp := PrimFloat.opp;
  s_add := PrimFloat.add;
  s_sub := PrimFloat.sub;
  s_mul := PrimFloat.mul;
  s_div := PrimFloat.div;
  s_sqrt := PrimFloat.sqrt
}.

Definition Rleb (x y : R) : bool := if Rle_dec x y then true else false.
Definition Rltb (x y : R) : bool := if Rlt_dec x y then true else false.
Definition Reqb (x y : R) : bool := if Req_dec_T x y then true else false.

(** Exact arithmetic: no NaN arises, comparisons are those of the reals. *)
#[export] Instance real_scalar : Scalar R := {
  s_nan := 0%R;
  s_isnan := fun _ => false;
  s_le := Rleb;
  s_lt := Rltb;
  s_eq := Reqb;
  s_zero := 0%R;
  s_one := 1%R;
  s_lit_0_1 := (1 / 10)%R;
  s_pi := PI;
  s_of_nat := INR;
  s_opp := Ropp;
  s_add := Rplus;
  s_sub := Rminus;
  s_mul := Rmult;
  s_div := Rdiv;
  s_sqrt := R_sqrt.sqrt
}.

(** The one law of the comparisons the significance filter relies on. *)
Definition le_lt_trans_law (A : Type) `{Scalar A} : Prop :=
  forall p a b : A, s_le p a = true -> s_lt a b = true -> s_le p b = true.

(** ** pandas, numpy and statsmodels, as far as the class uses them *)

Section Libraries.

Context {A : Type} `{Scalar A}.

(** A [pd.Series]: a name and labelled values, in order (labels may repeat). *)
Record Series (L : Type) : Type := mkSeries {
  s_name : string;
  s_data : list (L * A)
}.

Arguments mkSeries {L} s_name s_data.
Arguments s_name {L} s.
Arguments s_data {L} s.

Definition s_index {L : Type} (s : Series L) : list L := map fst (s_data s).
Definition s_values {L : Type} (s : Series L) : list A := map snd (s_data s).

(** A [pd.DataFrame] of float64 columns: column names and rows under
    integer labels. *)
Record DataFrame : Type := mkDataFrame {
  df_columns : list string;
  df_rows : list (Z * list A)
}.

Definition df_index (d : DataFrame) : list Z := map fst (df_rows d).

(** [self._X] is a Series when there is one regressor, a DataFrame otherwise. *)
Inductive XData : Type :=
| XSeries (s : Series Z)
| XFrame (d : DataFrame).

(** A [np.ndarray] of one or two dimensions. *)
Inductive ndarray : Type :=
| Arr1 (v : list A)
| Arr2 (ncols : nat) (rows : list (list A)).

(** What [predict] receives: an array, or a pandas object with [to_numpy]. *)
Inductive array_like : Type :=
| NdArray (a : ndarray)
| PdSeries (s : Series Z)
| PdDataFrame (d : DataFrame).

(** Python values that may be passed as [alpha]. *)
Inductive pyobj : Type :=
| PyFloat (a : A)
| PyInt (z : Z)
| PyBool (b : bool)
| PyStr (s : string)
| PyNone
| NpFloat64 (a : A).

(** [type(alpha) is float] *)
Definition type_is_float (o : pyobj) : bool :=
  match o with
  | PyFloat _ => true
  | _ => false
  end.

(** *** Column access: [df[name]] and [df[names]] *)

Fixpoint index_of (name : string) (cols : list string) : option nat :=
  match cols with
  | [] => None
  | c :: cols' =>
      if String.eqb c name then Some 0
      else match index_of name cols' with
           | Some i => Some (S i)
           | None => None
           end
  end.

Definition df_getitem (d : DataFrame) (name : string) : result (Series Z) :=
  match index_of name (df_columns d) with
  | None => Raise (KeyError name)
  | Some i =>
      Ok (mkSeries name (map (fun r => (fst r, nth i (snd r) s_nan)) (df_rows d)))
  end.

Definition df_getitem_list (d : DataFrame) (names : list string) : result DataFrame :=
  idx <- mapM (fun n => match index_of n (df_columns d) with
                        | Some i => Ok i
                        | None => Raise (KeyError n)
                        end) names ;;
  Ok (mkDataFrame names
        (map (fun r => (fst r, map (fun i => nth i (snd r) s_nan) idx)) (df_rows d))).

(** The values of column number [i]. *)
Definition df_col (d : DataFrame) (i : nat) : list A :=
  map (fun r => nth i (snd r) s_nan) (df_rows d).

Definition df_cols (d : DataFrame) : list (list A) :=
  map (df_col d) (seq 0 (List.length (df_columns d))).

(** *** [dropna(axis='index')] *)

Definition series_dropna (s : Series Z) : Series Z :=
  mkSeries (s_name s) (filter (fun p => negb (s_isnan (snd p))) (s_data s)).

Definition df_dropna (d : DataFrame) : DataFrame :=
  mkDataFrame (df_columns d)
    (filter (fun r => forallb (fun v => negb (s_isnan v)) (snd r)) (df_rows d)).

Definition x_dropna (x : XData) : XData :=
  match x with
  | XSeries s => XSeries (series_dropna s)
  | XFrame d => XFrame (df_dropna d)
  end.

Definition x_index (x : XData) : list Z :=
  match x with
  | XSeries s => s_index s
  | XFrame d => df_index d
  end.

(** *** [.iloc[positions]]: selection by integer position *)

(** A position is converted to a C [long]: a Python integer that does not
    fit 64 bits cannot be one. *)
Definition fits_int64 (p : Z) : bool :=
  ((- 2 ^ 63 <=? p)%Z && (p <? 2 ^ 63)%Z)%bool.

Definition iloc_pos {T : Type} (l : list T) (p : Z) : result T :=
  let n := Z.of_nat (List.length l) in
  let q := if (p <? 0)%Z then (n + p)%Z else p in
  if ((0 <=? q)%Z && (q <? n)%Z)%bool then
    match nth_error l (Z.to_nat q) with
    | Some v => Ok v
    | None => Raise (IndexError "positional indexers are out-of-bounds")
    end
  else if fits_int64 p
       then Raise (IndexError "positional indexers are out-of-bounds")
       else Raise (OverflowError "Python int too large to convert to C long").

Definition overflows {T : Type} (l : list T) (p : Z) : bool :=
  match iloc_pos l p with
  | Raise (OverflowError _) => true
  | _ => false
  end.

(** The list of positions is converted as a whole before any row is taken:
    a position that overflows is reported first, wherever it stands. *)
Definition iloc_list {T : Type} (l : list T) (ps : list Z) : result (list T) :=
  if existsb (overflows l) ps
  then Raise (OverflowError "Python int too large to convert to C long")
  else mapM (iloc_pos l) ps.

Definition series_iloc {L : Type} (s : Series L) (ps : list Z) : result (Series L) :=
  d <- iloc_list (s_data s) ps ;; Ok (mkSeries (s_name s) d).

Definition df_iloc (d : DataFrame) (ps : list Z) : result DataFrame :=
  r <- iloc_list (df_rows d) ps ;; Ok (mkDataFrame (df_columns d) r).

Definition x_iloc (x : XData) (ps : list Z) : result XData :=
  match x with
  | XSeries s => s' <- series_iloc s ps ;; Ok (XSeries s')
  | XFrame d => d' <- df_iloc d ps ;; Ok (XFrame d')
  end.

(** [.shape[1]]: a Series has the one-element shape [(n,)]. *)
Definition x_shape_1 (x : XData) : result nat :=
  match x with
  | XSeries _ => Raise (IndexError "tuple index out of range")
  | XFrame d => Ok (List.length (df_columns d))
  end.

(** *** Reductions *)

(** pandas reductions skip NaN; an empty selection gives NaN. *)
Definition notna (l : list A) : list A := filter (fun v => negb (s_isnan v)) l.

Definition pd_min (l : list A) : A :=
  match notna l with
  | [] => s_nan
  | v :: l' => fold_left (fun m x => if s_lt x m then x else m) l' v
  end.

Definition pd_max (l : list A) : A :=
  match notna l with
  | [] => s_nan
  | v :: l' => fold_left (fun m x => if s_lt m x then x else m) l' v
  end.

Definition s_sum (l : list A) : A := fold_left s_add l s_zero.

Definition pd_mean (l : list A) : A :=
  let l' := notna l in s_div (s_sum l') (s_of_nat (List.length l')).

(** Sample variance with [ddof=1]: the divisor is [n - 1]. *)
Definition pd_var (l : list A) : A :=
  let l' := notna l in
  let m := pd_mean l in
  s_div (s_sum (map (fun x => s_mul (s_sub x m) (s_sub x m)) l'))
        (s_of_nat (List.length l' - 1)).

Definition pd_std (l : list A) : A := s_sqrt (pd_var l).

(** numpy reductions propagate NaN. *)
Definition np_maximum (a b : A) : A :=
  if s_isnan a then a else if s_isnan b then b else if s_lt a b then b else a.

Definition np_minimum (a b : A) : A :=
  if s_isnan a then a else if s_isnan b then b else if s_lt b a then b else a.

Definition np_ptp (l : list A) : option A :=
  match l with
  | [] => None                       (* zero-size reduction: raises *)
  | v :: l' => Some (s_sub (fold_left np_maximum l' v) (fold_left np_minimum l' v))
  end.

(** [X.min()] / [X.max()] of the training regressors: one value per column
    for a DataFrame, a scalar for a Series. *)
Definition x_min (x : XData) : list A :=
  match x with
  | XSeries s => [pd_min (s_values s)]
  | XFrame d => map pd_min (df_cols d)
  end.

Definition x_max (x : XData) : list A :=
  match x with
  | XSeries s => [pd_max (s_values s)]
  | XFrame d => map pd_max (df_cols d)
  end.

(** *** [to_numpy], [np.insert(v, 0, 1)] *)

Definition to_numpy (x : array_like) : ndarray :=
  match x with
  | NdArray a => a
  | PdSeries s => Arr1 (s_values s)
  | PdDataFrame d => Arr2 (List.length (df_columns d)) (map snd (df_rows d))
  end.

Definition np_insert_0_1 (v : list A) : list A := s_one :: v.

(** *** [sm.add_constant]

    With the default [has_constant='skip'] no column is added when some
    column is already a nonzero constant. *)

Definition is_nonzero_const (col : list A) : bool :=
  match np_ptp col with
  | None => false
  | Some d => (s_eq d s_zero && forallb (fun x => negb (s_eq x s_zero)) col)%bool
  end.

(** On a pandas object: the result is a DataFrame, ['const'] first. *)
Definition x_as_frame (x : XData) : DataFrame :=
  match x with
  | XSeries s => mkDataFrame [s_name s] (map (fun p => (fst p, [snd p])) (s_data s))
  | XFrame d => d
  end.

Definition sm_add_constant_pandas (x : XData) : DataFrame :=
  let d := x_as_frame x in
  if existsb is_nonzero_const (df_cols d) then d
  else mkDataFrame ("const" :: df_columns d)
         (map (fun r => (fst r, s_one :: snd r)) (df_rows d)).

(** On an array: a 1-d array is read as one column. *)
Definition columns_of (ncols : nat) (rows : list (list A)) : list (list A) :=
  map (fun i => map (fun r => nth i r s_nan) rows) (seq 0 ncols).

Definition sm_add_constant_numpy (a : ndarray) : result ndarray :=
  let '(ncols, rows) :=
    match a with
    | Arr1 v => (1, map (fun x => [x]) v)
    | Arr2 n rows => (n, rows)
    end in
  match rows with
  | [] => Raise (ValueError "zero-size array to reduction operation")
  | _ =>
      if existsb is_nonzero_const (columns_of ncols rows) then Ok (Arr2 ncols rows)
      else Ok (Arr2 (S ncols) (map (fun r => s_one :: r) rows))
  end.

End Libraries.

Arguments Series A L : clear implicits.
Arguments DataFrame A : clear implicits.
Arguments XData A : clear implicits.
Arguments ndarray A : clear implicits.
Arguments array_like A : clear implicits.
Arguments pyobj A : clear implicits.
Arguments mkSeries {A L} s_name s_data.
Arguments s_name {A L} s.
Arguments s_data {A L} s.
Arguments mkDataFrame {A} df_columns df_rows.

(** ** The delegated solver's result object *)

Record ParamStats (A : Type) : Type := mkParamStats {
  ps_param : A;
  ps_bse : A;
  ps_tvalue : A;
  ps_pvalue : A
}.

Arguments mkParamStats {A} ps_param ps_bse ps_tvalue ps_pvalue.
Arguments ps_param {A} p.
Arguments ps_bse {A} p.
Arguments ps_tvalue {A} p.
Arguments ps_pvalue {A} p.

(** The arrays a fitted statsmodels result holds.  [res_table] has one row
    per column of the design matrix, under that column's name. *)
Record Results (A : Type) : Type := mkResults {
  res_table : list (string * ParamStats A);
  res_llf : A;
  res_prsquared : A;
  res_aic : A;
  res_bic : A;
  res_fittedvalues : list A;      (* the linear predictor of each training row *)
  res_resid_pearson : list A;
  res_use_t : bool
}.

Arguments mkResults {A} _ _ _ _ _ _ _ _.
Arguments res_table {A} r.
Arguments res_llf {A} r.
Arguments res_prsquared {A} r.
Arguments res_aic {A} r.
Arguments res_bic {A} r.
Arguments res_fittedvalues {A} r.
Arguments res_resid_pearson {A} r.
Arguments res_use_t {A} r.

Section ResultsWrapper.

Context {A : Type} `{Scalar A}.

(** Attribute access on the results wrapper ([results.params],
    [results.pvalues], ...): statsmodels' [ResultsWrapper.__getattribute__]
    takes the array stored in the wrapped results and passes it through
    [data.wrap_output], which builds [Series(array, index=param_names)].
    Every access therefore hands out a new Series over the stored array. *)
Definition wrap_columns (f : ParamStats A -> A) (r : Results A) : Series A string :=
  mkSeries "" (map (fun p => (fst p, f (snd p))) (res_table r)).

Definition results_params : Results A -> Series A string := wrap_columns ps_param.
Definition results_bse : Results A -> Series A string := wrap_columns ps_bse.
Definition results_tvalues : Results A -> Series A string := wrap_columns ps_tvalue.
Definition results_pvalues : Results A -> Series A string := wrap_columns ps_pvalue.

(** [series.drop(label)]: every row under the label goes; a label that is
    absent raises. *)
Definition series_drop (label : string) (s : Series A string) : result (Series A string) :=
  if existsb (String.eqb label) (s_index s) then
    Ok (mkSeries (s_name s)
          (filter (fun p => negb (String.eqb label (fst p))) (s_data s)))
  else Raise (KeyError label).

(** [pd.Series(values, index=index, name=name)] *)
Definition pd_Series {L : Type} (name : string) (values : list A) (index : list L)
  : result (Series A L) :=
  if (List.length values =? List.length index)%nat then
    Ok (mkSeries name (combine index values))
  else Raise (ValueError "Length of passed values does not match length of index").

(** Label lookup, NaN where the label is absent (as column assignment and
    arithmetic between Series align). *)
Fixpoint assoc_or_nan (n : string) (l : list (string * A)) : A :=
  match l with
  | [] => s_nan
  | (k, v) :: l' => if String.eqb k n then v else assoc_or_nan n l'
  end.

Definition align_to (index : list string) (s : Series A string) : list (string * A) :=
  map (fun n => (n, assoc_or_nan n (s_data s))) index.

End ResultsWrapper.

(** ** The class [Logit] *)

Module Logit.

Section Class.

Context {A : Type} `{Scalar A}.

(** The solver: [sm.Logit(y, X).fit()] on an endogenous Series and a design
    matrix; it may fail (no convergence, singular matrix, ...). *)
Variable Logit_fit : Series A Z -> DataFrame A -> result (Results A).

(** [np.exp] *)
Variable np_exp : A -> A.

(** [results.summary(alpha=...)]: the summary keeps what it was built from. *)
Record Summary : Type := mkSummary {
  summary_results : Results A;
  summary_alpha : pyobj A
}.

(** The data behind the Styler of standardized estimates: the regressors in
    the index, six labelled columns. *)
Record StdTable : Type := mkStdTable {
  tbl_axis_name : string;
  tbl_index : list string;
  tbl_columns : list string;
  tbl_coef : list (string * A);
  tbl_stat : list (string * A);
  tbl_pvalue : list (string * A);
  tbl_coef_stdX : list (string * A);
  tbl_coef_stdXy : list (string * A);
  tbl_stdev_X : list (string * A);
  tbl_caption : string
}.

(** A constructed model: every attribute [__init__] leaves on [self]. *)
Record t : Type := mkLogit {
  _y : Series A Z;
  _X : XData A;
  _alpha : pyobj A;
  _X_model : XData A;
  _y_model : Series A Z;
  _results : Results A;
  _results_output : Summary;
  _model_selection_stats : list (string * A);
  _log_likelihood : A;
  _odds_ratios : Series A string;
  _X_model_standardized : XData A;
  _resid_model_standardized : Series A Z;
  _results_output_standardized : StdTable
}.

(** *** Properties *)

Definition y (self : t) : Series A Z := _y self.
Definition X (self : t) : XData A := _X self.
Definition y_model (self : t) : Series A Z := _y_model self.
Definition X_model (self : t) : XData A := _X_model self.
Definition X_model_standardized (self : t) : XData A := _X_model_standardized self.
Definition alpha (self : t) : pyobj A := _alpha self.
Definition results (self : t) : Results A := _results self.
Definition results_output (self : t) : Summary := _results_output self.
Definition results_output_standardized (self : t) : StdTable :=
  _results_output_standardized self.
Definition resid_model_standardized (self : t) : Series A Z :=
  _resid_model_standardized self.
Definition model_selection_stats (self : t) : list (string * A) :=
  _model_selection_stats self.
Definition odds_ratios (self : t) : Series A string := _odds_ratios self.
Definition log_likelihood (self : t) : A := _log_likelihood self.

(** *** [_regress] *)

(** [list(set(a).intersection(set(b)))]: the common labels, each once.  The
    order in which Python lists a set is unspecified; the one here is that of
    [a].  Both selections below use the same list, so the order only
    arranges the rows of the sample. *)
Definition set_intersection_list (a b : list Z) : list Z :=
  nodup Z.eq_dec (filter (fun i => existsb (Z.eqb i) b) a).

(** Lines 209-210: both sides are selected by POSITION with the labels. *)
Definition select_sample (X0 : XData A) (y0 : Series A Z) (indices : list Z)
  : result (XData A * Series A Z) :=
  Xm <- x_iloc X0 indices ;;
  ym <- series_iloc y0 indices ;;
  Ok (Xm, ym).

(** Lines 206-210. *)
Definition aligned_sample (X0 : XData A) (y0 : Series A Z)
  : result (XData A * Series A Z) :=
  let X_notna := x_dropna X0 in
  let y_notna := series_dropna y0 in
  let indices := set_intersection_list (x_index X_notna) (s_index y_notna) in
  select_sample X0 y0 indices.

Record RegressOut : Type := mkRegressOut {
  ro_X_model : XData A;
  ro_y_model : Series A Z;
  ro_results : Results A;
  ro_results_output : Summary;
  ro_model_selection_stats : list (string * A);
  ro_log_likelihood : A;
  ro_odds_ratios : Series A string
}.

Definition _regress (X0 : XData A) (y0 : Series A Z) (alpha0 : pyobj A)
  : result RegressOut :=
  s <- aligned_sample X0 y0 ;;
  let '(Xm, ym) := s in
  res <- Logit_fit ym (sm_add_constant_pandas Xm) ;;
  let results_output := mkSummary res alpha0 in
  let model_selection_dict :=
    [("Log-likelihood", res_llf res);
     ("Pseudo R-squared", res_prsquared res);
     ("AIC", res_aic res);
     ("BIC", res_bic res)] in
  p <- series_drop "const" (results_params res) ;;
  let odds := mkSeries "odds_ratios"
                (map (fun c => (fst c, np_exp (snd c))) (s_data p)) in
  Ok (mkRegressOut Xm ym res results_output model_selection_dict (res_llf res) odds).

(** *** [_standardize_results] *)

(** [X.std(ddof=1)]: a scalar for a Series, one entry per column otherwise. *)
Inductive Stdev : Type :=
| StdScalar (v : A)
| StdSeries (s : Series A string).

Definition x_std (x : XData A) : Stdev :=
  match x with
  | XSeries s => StdScalar (pd_std (s_values s))
  | XFrame d => StdSeries (mkSeries "" (combine (df_columns d) (map pd_std (df_cols d))))
  end.

(** [(X - X.mean()) / stdev_X] *)
Definition zscore (m sd v : A) : A := s_div (s_sub v m) sd.

Definition x_standardize (x : XData A) : XData A :=
  match x with
  | XSeries s =>
      let m := pd_mean (s_values s) in
      let sd := pd_std (s_values s) in
      XSeries (mkSeries (s_name s) (map (fun p => (fst p, zscore m sd (snd p))) (s_data s)))
  | XFrame d =>
      let ms := map pd_mean (df_cols d) in
      let sds := map pd_std (df_cols d) in
      XFrame (mkDataFrame (df_columns d)
                (map (fun r =>
                        (fst r,
                         map (fun i => zscore (nth i ms s_nan) (nth i sds s_nan)
                                              (nth i (snd r) s_nan))
                             (seq 0 (List.length (df_columns d)))))
                     (df_rows d)))
  end.

Definition stdev_column (index : list string) (sd : Stdev) : list (string * A) :=
  match sd with
  | StdScalar v => map (fun n => (n, v)) index
  | StdSeries s => align_to index s
  end.

Definition stdev_at (sd : Stdev) (n : string) : A :=
  match sd with
  | StdScalar v => v
  | StdSeries s => assoc_or_nan n (s_data s)
  end.

(** [frame[col] = series] on a frame created with the index [index]: the
    values are aligned to the index of the frame, but a frame without rows
    first takes the index of the assigned Series. *)
Definition index_after_assign (index : list string) (first : Series A string)
  : list string :=
  match index with
  | [] => s_index first
  | _ => index
  end.

Record StandardizeOut : Type := mkStandardizeOut {
  so_X_model_standardized : XData A;
  so_resid_model_standardized : Series A Z;
  so_results_output_standardized : StdTable
}.

Definition _standardize_results (y0 : Series A Z) (r : RegressOut)
  : result StandardizeOut :=
  let stdev_X := x_std (ro_X_model r) in
  let Xs := x_standardize (ro_X_model r) in
  results_obj <- Logit_fit (ro_y_model r) (sm_add_constant_pandas Xs) ;;
  resid <- pd_Series "" (res_resid_pearson (ro_results r)) (s_index (ro_y_model r)) ;;
  ps <- series_drop "const" (results_params results_obj) ;;
  let output_indices := s_index ps in
  let index := index_after_assign output_indices (results_params (ro_results r)) in
  let coef := align_to index (results_params (ro_results r)) in
  let stat := align_to index (results_tvalues (ro_results r)) in
  let pval := align_to index (results_pvalues (ro_results r)) in
  let output_cols :=
    if negb (res_use_t results_obj)
    then ["coef"; "z"; "P>|z|"; "coef_stdX"; "coef_stdXy"; "stdev_X"]
    else ["coef"; "t"; "P>|t|"; "coef_stdX"; "coef_stdXy"; "stdev_X"] in
  let coef_stdX := align_to index (results_params results_obj) in
  let stdev_col := stdev_column index stdev_X in
  (* Long's method *)
  let sd_fitted := pd_std (res_fittedvalues (ro_results r)) in
  let var_explained := s_mul sd_fitted sd_fitted in
  let var_ystar := s_add var_explained (s_div (s_mul s_pi s_pi) (s_of_nat 3)) in
  let coef_stdXy :=
    map (fun c => (fst c,
                   s_div (s_mul (snd c) (stdev_at stdev_X (fst c))) (s_sqrt var_ystar)))
        coef in
  Ok (mkStandardizeOut Xs resid
        (mkStdTable (s_name y0) index output_cols
                    coef stat pval coef_stdX coef_stdXy stdev_col
                    "Unstandardized and Standardized Estimates")).

(** *** [__init__] *)

Definition __init__ (df : DataFrame A) (y_list regressors_list : list string)
                    (alpha0 : pyobj A) : result t :=
  y_name <- match y_list with
            | [n] => Ok n
            | _ => Raise (ValueError "not exactly one value to unpack")
            end ;;
  y0 <- df_getitem df y_name ;;
  X0 <- match regressors_list with
        | [x_name] => s <- df_getitem df x_name ;; Ok (XSeries s)
        | _ => d <- df_getitem_list df regressors_list ;; Ok (XFrame d)
        end ;;
  r <- _regress X0 y0 alpha0 ;;
  s <- _standardize_results y0 r ;;
  Ok (mkLogit y0 X0 alpha0
        (ro_X_model r) (ro_y_model r) (ro_results r) (ro_results_output r)
        (ro_model_selection_stats r) (ro_log_likelihood r) (ro_odds_ratios r)
        (so_X_model_standardized s) (so_resid_model_standardized s)
        (so_results_output_standardized s)).

(** *** [predict] *)

(** [results.predict(exog=...)]: a 1-d array is one row (or one column when
    the model has a single parameter); the rows must be as wide as the
    parameter vector; the prediction is the logistic cdf of the linear
    predictor. *)
Definition logit_cdf (x : A) : A :=
  s_div s_one (s_add s_one (np_exp (s_opp x))).

Definition np_dot (row params : list A) : A :=
  s_sum (map (fun p => s_mul (fst p) (snd p)) (combine row params)).

Definition results_predict (res : Results A) (exog : ndarray A) : result (list A) :=
  let params := s_values (results_params res) in
  let '(ncols, rows) :=
    match exog with
    | Arr1 v =>
        if (List.length params =? 1)%nat then (1, map (fun x => [x]) v)
        else (List.length v, [v])
    | Arr2 n rows => (n, rows)
    end in
  if (ncols =? List.length params)%nat then
    Ok (map (fun row => logit_cdf (np_dot row params)) rows)
  else Raise (ValueError "shapes not aligned").

Definition shape_message : string :=
  "Check that X_predict shape corresponds with the number of regressors.".

(** [all_vals_in_range]: one truth value on the 1-d branch, one per example
    on the other. *)
Inductive Mask : Type :=
| MaskScalar (b : bool)
| MaskVec (l : list bool).

Definition zip_with {T U V : Type} (f : T -> U -> V) (l : list T) (l' : list U) : list V :=
  map (fun p => f (fst p) (snd p)) (combine l l').

(** [np.where(mask, preds, np.NaN)] *)
Definition np_where_nan (m : Mask) (preds : list A) : result (list A) :=
  match m with
  | MaskScalar b => Ok (map (fun p => if b then p else s_nan) preds)
  | MaskVec l =>
      if (List.length l =? List.length preds)%nat then
        Ok (zip_with (fun (b : bool) p => if b then p else s_nan) l preds)
      else Raise (ValueError "operands could not be broadcast together")
  end.

Definition predict (self : t) (X_predict : array_like A) (within_sample : bool)
  : result (list A) :=
  regressors_count <- x_shape_1 (_X_model self) ;;
  let X_predict := to_numpy X_predict in
  let '(examples_to_predict, regressors_detected) :=
    match X_predict with
    | Arr1 v => (1, List.length v)
    | Arr2 n rows => (List.length rows, n)
    end in
  if negb (regressors_detected =? regressors_count)%nat then
    Raise (ValueError shape_message)
  else
    me <-
      match within_sample, X_predict with
      | true, Arr1 v =>
          let vals_in_range :=
            zip_with andb
              (zip_with s_le (x_min (_X_model self)) v)
              (zip_with s_le v (x_max (_X_model self))) in
          let all_vals_in_range := forallb (fun b => b) vals_in_range in
          Ok (MaskScalar all_vals_in_range, Arr1 (np_insert_0_1 v))
      | _, _ =>
          let rows := match X_predict with Arr1 v => [v] | Arr2 _ rows => rows end in
          let tiled := repeat (x_min (_X_model self)) examples_to_predict in
          let vals_in_range_min := zip_with (zip_with s_le) tiled rows in
          (* np.greater_equal(X_predict, tile(min)) : X_predict >= min *)
          let vals_in_range_max :=
            zip_with (zip_with (fun x m => s_le m x)) rows tiled in
          let vals_in_range :=
            zip_with (zip_with andb) vals_in_range_min vals_in_range_max in
          let all_vals_in_range := map (forallb (fun b => b)) vals_in_range in
          exog <- sm_add_constant_numpy X_predict ;;
          Ok (MaskVec all_vals_in_range, exog)
      end ;;
    let '(all_vals_in_range, exog) := me in
    preds <- results_predict (_results self) exog ;;
    if within_sample then np_where_nan all_vals_in_range preds
    else Ok preds.

(** *** [significant_regressors] *)

(** The interpreter state an operation runs in: the model, and the Series
    objects that attribute access on the results wrapper has created. *)
Record pystate : Type := mkState {
  st_self : t;
  st_objects : list (Series A string)
}.

(** [self._results.pvalues]: a reference to a NEW Series (the wrapper builds
    one from the stored array at each access). *)
Definition getattr_pvalues (st : pystate) : nat * pystate :=
  (List.length (st_objects st),
   mkState (st_self st)
           (st_objects st ++ [results_pvalues (_results (st_self st))])).

Fixpoint set_nth {T : Type} (n : nat) (v : T) (l : list T) : list T :=
  match l, n with
  | [], _ => []
  | _ :: l', O => v :: l'
  | x :: l', S n' => x :: set_nth n' v l'
  end.

(** [obj.drop(label, inplace=True)] on the object behind a reference. *)
Definition drop_inplace (ref : nat) (label : string) (st : pystate)
  : result unit * pystate :=
  match nth_error (st_objects st) ref with
  | None => (Raise (KeyError "dangling reference"), st)
  | Some s =>
      match series_drop label s with
      | Ok s' => (Ok tt, mkState (st_self st) (set_nth ref s' (st_objects st)))
      | Raise e => (Raise e, st)
      end
  end.

(** [np.where(cond)[0]]: the positions that hold [True]. *)
Fixpoint np_where_true (i : nat) (l : list bool) : list nat :=
  match l with
  | [] => []
  | b :: l' => if b then i :: np_where_true (S i) l' else np_where_true (S i) l'
  end.

Definition significant_regressors (alpha0 : pyobj A) (st : pystate)
  : result (option (list string)) * pystate :=
  match alpha0 with
  | PyFloat a =>
      if (s_le a s_zero || s_lt s_lit_0_1 a)%bool then
        (Raise (ValueError
                  "Ensure significance level is a float number in range (0, 0.1]"), st)
      else
        let '(ref, st1) := getattr_pvalues st in
        match drop_inplace ref "const" st1 with
        | (Raise e, st2) => (Raise e, st2)
        | (Ok _, st2) =>
            match nth_error (st_objects st2) ref with
            | None => (Raise (KeyError "dangling reference"), st2)
            | Some regressor_pvalues =>
                let indices_significant :=
                  np_where_true 0
                    (map (fun p => s_le p a) (s_values regressor_pvalues)) in
                match indices_significant with
                | [] => (Ok None, st2)
                | _ =>
                    match series_iloc regressor_pvalues
                            (map Z.of_nat indices_significant) with
                    | Ok s => (Ok (Some (s_index s)), st2)
                    | Raise e => (Raise e, st2)
                    end
                end
            end
        end
  | _ =>
      (Raise (TypeError "Ensure that alpha is a float number in range (0, 0.1]"), st)
  end.

(** *** Vocabulary for the properties *)

(** The number of regressors an input shows. *)
Definition regressors_detected (X_predict : array_like A) : nat :=
  match to_numpy X_predict with
  | Arr1 v => List.length v
  | Arr2 n _ => n
  end.

(** The regressors other than the constant whose p-value is at most [a],
    in the order of the parameters. *)
Definition not_const (c : string * A) : bool := negb (String.eqb "const" (fst c)).

Definition significant_names (res : Results A) (a : A) : list string :=
  map fst (filter (fun c => s_le (snd c) a)
                  (filter not_const (s_data (results_pvalues res)))).

(** The names in what [significant_regressors] returns ([None]: no name). *)
Definition names_of (r : option (list string)) : list string :=
  match r with
  | None => []
  | Some l => l
  end.

(** The public surface: the read accessors and the two operations. *)
Inductive public_call : Type :=
| Get_y | Get_X | Get_y_model | Get_X_model | Get_X_model_standardized
| Get_alpha | Get_results | Get_results_output | Get_results_output_standardized
| Get_resid_model_standardized | Get_model_selection_stats | Get_odds_ratios
| Get_log_likelihood
| Call_predict (X_predict : array_like A) (within_sample : bool)
| Call_significant_regressors (alpha0 : pyobj A).

(** The state a call leaves.  The accessors return an attribute and
    [predict] computes on local values: neither assigns to [self] nor
    creates a wrapper object. *)
Definition state_after (c : public_call) (st : pystate) : pystate :=
  match c with
  | Call_significant_regressors alpha0 => snd (significant_regressors alpha0 st)
  | _ => st
  end.

End Class.

Arguments t A : clear implicits.
Arguments public_call A : clear implicits.
Arguments pystate A : clear implicits.
Arguments Summary A : clear implicits.
Arguments StdTable A : clear implicits.
Arguments RegressOut A : clear implicits.
Arguments StandardizeOut A : clear implicits.
Arguments Stdev A : clear implicits.

End Logit.

(** ** Concrete data for the examples *)

Module Example.

(** A stand-in for the solver, used only to build concrete models: the
    parameter of a column is its first value, the p-value its second value;
    the fitted values are the linear predictor of each row, the residuals
    the response minus the fitted value. *)
Definition stub_fit {A : Type} `{Scalar A} (y0 : Series A Z) (X0 : DataFrame A)
  : result (Results A) :=
  match df_rows X0 with
  | [] => Raise (FitError "no observations")
  | _ =>
      let cols := df_cols X0 in
      let params := map (fun c => nth 0 c s_nan) cols in
      let table :=
        map (fun nc => (fst nc,
                        mkParamStats (nth 0 (snd nc) s_nan) s_one
                                     (nth 0 (snd nc) s_nan) (nth 1 (snd nc) s_nan)))
            (combine (df_columns X0) cols) in
      let fitted := map (fun r => Logit.np_dot (snd r) params) (df_rows X0) in
      Ok (mkResults table s_zero s_zero s_zero s_zero
            fitted
            (Logit.zip_with s_sub (s_values y0) fitted)
            false)
  end.

Local Open Scope float_scope.

(** Five cars: outcome [vs], regressors [wt] and [disp]; default row labels. *)
Definition cars : DataFrame float :=
  mkDataFrame ["vs"; "wt"; "disp"]
    [ (0%Z, [0; 2.625; 160]);
      (1%Z, [0; 2.875; 160]);
      (2%Z, [1; 2.25; 108]);
      (3%Z, [1; 3.25; 258]);
      (4%Z, [0; 3.5; 360]) ].

(** The same observations, the rows labelled from 1, the outcome of the
    last one missing. *)
Definition cars_from_1 : DataFrame float :=
  mkDataFrame ["vs"; "wt"; "disp"]
    [ (1%Z, [0; 2.625; 160]);
      (2%Z, [1; 2.25; 108]);
      (3%Z, [nan; 3.5; 360]) ].

(** Rows 0, 2 and 4 of [cars], kept under their labels (a filtered table). *)
Definition cars_even : DataFrame float :=
  mkDataFrame ["vs"; "wt"; "disp"]
    [ (0%Z, [0; 2.625; 160]);
      (2%Z, [1; 2.25; 108]);
      (4%Z, [0; 3.5; 360]) ].

(** A table whose second row (the stub's p-values) is small for [a] and [b]. *)
Definition trial : DataFrame float :=
  mkDataFrame ["y"; "a"; "b"; "c"]
    [ (0%Z, [0; 1.5; 2; 0.25]);
      (1%Z, [1; 0.015625; 0.0625; 0.5]);
      (2%Z, [1; 3; 1; 4]) ].

(** [np.exp] is never evaluated in the examples: its applications stay as
    they are, under this name. *)
Definition exp_stub : float -> float := fun x => x.

Definition or_else {T : Type} (c : result T) (d : T) : T :=
  match c with Ok v => v | Raise _ => d end.

Definition empty_series {A L : Type} : Series A L := mkSeries "" [].

(** What [or_else] falls back on; no example reaches it. *)
Definition blank_model {A : Type} `{Scalar A} : Logit.t A :=
  let res := mkResults [] s_zero s_zero s_zero s_zero [] [] false in
  Logit.mkLogit empty_series (XSeries empty_series) PyNone
    (XSeries empty_series) empty_series res (Logit.mkSummary res PyNone)
    [] s_zero empty_series (XSeries empty_series) empty_series
    (Logit.mkStdTable "" [] [] [] [] [] [] [] [] "").

(** [Logit(cars, ['vs'], ['wt', 'disp'])] *)
Definition cars_model (np_exp : float -> float) : Logit.t float :=
  or_else (Logit.__init__ stub_fit np_exp cars ["vs"] ["wt"; "disp"] (PyFloat 0x1.999999999999ap-5))
          blank_model.

(** [Logit(cars, ['vs'], ['wt'])]: one regressor. *)
Definition cars_model_wt (np_exp : float -> float) : Logit.t float :=
  or_else (Logit.__init__ stub_fit np_exp cars ["vs"] ["wt"] (PyFloat 0x1.999999999999ap-5))
          blank_model.

(** [Logit(trial, ['y'], ['a', 'b', 'c'])] *)
Definition trial_model (np_exp : float -> float) : Logit.t float :=
  or_else (Logit.__init__ stub_fit np_exp trial ["y"] ["a"; "b"; "c"] (PyFloat 0x1.999999999999ap-5))
          blank_model.

Local Close Scope float_scope.

(** Two observations in exact arithmetic: outcome [y], regressors [a], [b]. *)
Definition real_table : DataFrame R :=
  mkDataFrame ["y"; "a"; "b"]
    [ (0%Z, [0%R; 0%R; 1%R]);
      (1%Z, [1%R; 2%R; 0%R]) ].

(** [Logit(real_table, ['y'], ['a', 'b'])], with the real exponential. *)
Definition real_model : Logit.t R :=
  or_else (Logit.__init__ stub_fit exp real_table ["y"] ["a"; "b"]
                          (PyFloat (1 / 20)%R))
          blank_model.

(** The regressors and the outcome of [cars_from_1], as [__init__] takes
    them from the table. *)
Definition cars_from_1_X : XData float :=
  XFrame (or_else (df_getitem_list cars_from_1 ["wt"; "disp"]) (mkDataFrame [] [])).

Definition cars_from_1_y : Series float Z :=
  or_else (df_getitem cars_from_1 "vs") empty_series.

End Example.

(** ** Further vocabulary and data *)

Section Vocabulary.

Context {A : Type} `{Scalar A}.

(** The default row labels of a table of [n] rows: 0, 1, ..., n-1. *)
Definition range_index (n : nat) : list Z := map Z.of_nat (seq 0 n).

(** The rows of the regressors, each with its values as a list. *)
Definition x_rows (x : XData A) : list (Z * list A) :=
  match x with
  | XSeries s => map (fun p => (fst p, [snd p])) (s_data s)
  | XFrame d => df_rows d
  end.

Definition x_columns (x : XData A) : list string :=
  match x with
  | XSeries s => [s_name s]
  | XFrame d => df_columns d
  end.

(** The regressors column by column. *)
Definition x_column_values (x : XData A) : list (list A) :=
  match x with
  | XSeries s => [s_values s]
  | XFrame d => df_cols d
  end.

(** No value of the row is missing. *)
Definition complete (vals : list A) : bool :=
  forallb (fun v => negb (s_isnan v)) vals.

(** Regressor number [j] of the observation [v] lies in the closed range
    of the training values of that regressor. *)
Definition in_training_range (X0 : XData A) (v : list A) (j : nat) : bool :=
  (s_le (nth j (x_min X0) s_nan) (nth j v s_nan)
   && s_le (nth j v s_nan) (nth j (x_max X0) s_nan))%bool.

(** The solver names its parameters after the columns of the design
    matrix it is given, in their order. *)
Definition names_follow_design
           (fit : Series A Z -> DataFrame A -> result (Results A)) : Prop :=
  forall y0 X0 r, fit y0 X0 = Ok r -> map fst (res_table r) = df_columns X0.

End Vocabulary.

Module Cases.

Local Open Scope float_scope.

(** Four cars under the default labels; the weight of car 1 and the
    outcome of car 3 are missing. *)
Definition cars_missing : DataFrame float :=
  mkDataFrame ["vs"; "wt"; "disp"]
    [ (0%Z, [0; 2.625; 160]);
      (1%Z, [0; nan; 160]);
      (2%Z, [1; 2.25; 108]);
      (3%Z, [nan; 3.25; 258]) ].

(** Three cars with a regressor that is the same nonzero number on every
    row. *)
Definition cars_four_cyl : DataFrame float :=
  mkDataFrame ["vs"; "wt"; "cyl"]
    [ (0%Z, [0; 2.625; 4]);
      (1%Z, [1; 2.25; 4]);
      (2%Z, [0; 3.5; 4]) ].

(** Two observations whose fitted values under the stand-in solver are 2
    and 5. *)
Definition pairs : DataFrame float :=
  mkDataFrame ["y"; "a"; "b"]
    [ (0%Z, [0; 0; 1]);
      (1%Z, [1; 1; 4]) ].

(** [Logit(pairs, ['y'], ['a', 'b'])] *)
Definition pairs_model : Logit.t float :=
  Example.or_else
    (Logit.__init__ Example.stub_fit Example.exp_stub pairs ["y"] ["a"; "b"]
                    (PyFloat 0x1.999999999999ap-5))
    Example.blank_model.

(** [Logit(cars, ['vs'], [])]: no regressor at all. *)
Definition cars_model_no_regressors : Logit.t float :=
  Example.or_else
    (Logit.__init__ Example.stub_fit Example.exp_stub Example.cars ["vs"] []
                    (PyFloat 0x1.999999999999ap-5))
    Example.blank_model.

(** [np.exp] and [np.log] on binary64, at the ends of the range, where
    their values need no computing: [e^x] exceeds the largest double from
    [x = 710] on, so [np.exp(x)] is [inf]; [e^x] is below half the smallest
    subnormal double up to [x = -746], so [np.exp(x)] is [0.0];
    [np.log(inf)] is [inf] and [np.log(0.0)] is [-inf].  The example below
    uses no other argument; on the others the two stand-ins give NaN. *)
Definition np_exp_at_ends (x : float) : float :=
  if 710 <=? x then infinity
  else if x <=? -746 then 0
  else nan.

Definition np_log_at_ends (y : float) : float :=
  if y =? infinity then infinity
  else if y =? 0 then neg_infinity
  else nan.

(** Two observations whose first row gives the stand-in solver the
    coefficients 1000 and -1000. *)
Definition steep : DataFrame float :=
  mkDataFrame ["y"; "a"; "b"]
    [ (0%Z, [0; 1000; -1000]);
      (1%Z, [1; 1; 2]) ].

(** [Logit(steep, ['y'], ['a', 'b'])] *)
Definition steep_model : Logit.t float :=
  Example.or_else
    (Logit.__init__ Example.stub_fit np_exp_at_ends steep ["y"] ["a"; "b"]
                    (PyFloat 0x1.999999999999ap-5))
    Example.blank_model.

(** The two sides of a table, as [__init__] takes them from it. *)
Definition regressors_of (df : DataFrame float) (names : list string) : XData float :=
  XFrame (Example.or_else (df_getitem_list df names) (mkDataFrame [] [])).

Definition outcome_of (df : DataFrame float) (name : string) : Series float Z :=
  Example.or_else (df_getitem df name) Example.empty_series.

End Cases.

(** * Properties *)

(** ** Comparisons *)

Lemma SFleb_SFltb_trans (x y z : spec_float) :
  SFleb x y = true -> SFltb y z = true -> SFleb x z = true.
Proof.
  unfold SFleb, SFltb, SFcompare.
  destruct x as [sx|sx| |sx mx ex], y as [sy|sy| |sy my ey], z as [sz|sz| |sz mz ez];
    try destruct sx; try destruct sy; try destruct sz; simpl; try congruence; auto.
  all: repeat match goal with
       | |- context [Z.compare ?a ?b] => destruct (Z.compare_spec a b)
       | |- context [Pos.compare_cont Eq ?a ?b] =>
           change (Pos.compare_cont Eq a b) with (Pos.compare a b)
       | |- context [Pos.compare ?a ?b] => destruct (Pos.compare_spec a b)
       end; simpl; try congruence; try lia.
Qed.

Lemma float_le_lt_trans : le_lt_trans_law float.
Proof.
  intros p a b. simpl. rewrite !leb_spec, ltb_spec. apply SFleb_SFltb_trans.
Qed.

Lemma Rleb_true_iff (x y : R) : Rleb x y = true <-> (x <= y)%R.
Proof. unfold Rleb. destruct (Rle_dec x y); split; intros; try discriminate; tauto. Qed.

Lemma Rltb_true_iff (x y : R) : Rltb x y = true <-> (x < y)%R.
Proof. unfold Rltb. destruct (Rlt_dec x y); split; intros; try discriminate; tauto. Qed.

Lemma Rltb_false_iff (x y : R) : Rltb x y = false <-> (y <= x)%R.
Proof.
  unfold Rltb. destruct (Rlt_dec x y); split; intros; try discriminate; try lra; auto.
Qed.

Lemma Reqb_false_iff (x y : R) : Reqb x y = false <-> x <> y.
Proof.
  unfold Reqb. destruct (Req_dec_T x y); split; intros; try discriminate; tauto.
Qed.

Lemma real_le_lt_trans : le_lt_trans_law R.
Proof.
  intros p a b. simpl. rewrite !Rleb_true_iff, Rltb_true_iff. lra.
Qed.

(** ** Reading a successful construction backwards *)

Lemma bind_Ok {T U : Type} (c : result T) (k : T -> result U) (v : U) :
  bind c k = Ok v -> exists x, c = Ok x /\ k x = Ok v.
Proof.
  destruct c as [x|e]; simpl; intros E; [exists x; auto | discriminate].
Qed.

Ltac bind_inv H x Hx :=
  apply bind_Ok in H; destruct H as (x & Hx & H).

Section Construction.

Context {A : Type} `{Scalar A}.
Variable Logit_fit : Series A Z -> DataFrame A -> result (Results A).
Variable np_exp : A -> A.

Lemma regress_inv (X0 : XData A) (y0 : Series A Z) (a0 : pyobj A)
      (r : Logit.RegressOut A) :
  Logit._regress Logit_fit np_exp X0 y0 a0 = Ok r ->
  exists p,
    Logit.aligned_sample X0 y0 = Ok (Logit.ro_X_model r, Logit.ro_y_model r) /\
    Logit_fit (Logit.ro_y_model r) (sm_add_constant_pandas (Logit.ro_X_model r))
      = Ok (Logit.ro_results r) /\
    series_drop "const" (results_params (Logit.ro_results r)) = Ok p /\
    Logit.ro_odds_ratios r =
      mkSeries "odds_ratios" (map (fun c => (fst c, np_exp (snd c))) (s_data p)).
Proof.
  unfold Logit._regress. intros E.
  bind_inv E s Hs. destruct s as [Xm ym].
  bind_inv E res Hres. bind_inv E p Hp.
  injection E as <-. exists p. simpl. auto.
Qed.

Lemma standardize_inv (y0 : Series A Z) (r : Logit.RegressOut A)
      (s : Logit.StandardizeOut A) :
  Logit._standardize_results Logit_fit y0 r = Ok s ->
  exists results_obj ps,
    Logit_fit (Logit.ro_y_model r)
              (sm_add_constant_pandas (Logit.x_standardize (Logit.ro_X_model r)))
      = Ok results_obj /\
    pd_Series "" (res_resid_pearson (Logit.ro_results r)) (s_index (Logit.ro_y_model r))
      = Ok (Logit.so_resid_model_standardized s) /\
    series_drop "const" (results_params results_obj) = Ok ps /\
    Logit.so_X_model_standardized s = Logit.x_standardize (Logit.ro_X_model r) /\
    Logit.tbl_index (Logit.so_results_output_standardized s)
      = Logit.index_after_assign (s_index ps) (results_params (Logit.ro_results r)) /\
    Logit.tbl_coef (Logit.so_results_output_standardized s)
      = align_to (Logit.tbl_index (Logit.so_results_output_standardized s))
                 (results_params (Logit.ro_results r)) /\
    Logit.tbl_coef_stdXy (Logit.so_results_output_standardized s)
      = map (fun c =>
               (fst c,
                s_div (s_mul (snd c)
                             (Logit.stdev_at (Logit.x_std (Logit.ro_X_model r)) (fst c)))
                      (s_sqrt
                         (s_add (s_mul (pd_std (res_fittedvalues (Logit.ro_results r)))
                                       (pd_std (res_fittedvalues (Logit.ro_results r))))
                                (s_div (s_mul s_pi s_pi) (s_of_nat 3))))))
            (Logit.tbl_coef (Logit.so_results_output_standardized s)) /\
    Logit.tbl_stdev_X (Logit.so_results_output_standardized s)
      = Logit.stdev_column (Logit.tbl_index (Logit.so_results_output_standardized s))
                           (Logit.x_std (Logit.ro_X_model r)).
Proof.
  unfold Logit._standardize_results. intros E.
  bind_inv E ro Hro. bind_inv E resid Hresid. bind_inv E ps Hps.
  injection E as <-. exists ro, ps. simpl. repeat split; auto.
Qed.

Lemma init_inv (df : DataFrame A) (y_list regressors_list : list string)
      (a0 : pyobj A) (m : Logit.t A) :
  Logit.__init__ Logit_fit np_exp df y_list regressors_list a0 = Ok m ->
  exists r s,
    Logit._regress Logit_fit np_exp (Logit._X m) (Logit._y m) a0 = Ok r /\
    Logit._standardize_results Logit_fit (Logit._y m) r = Ok s /\
    (match regressors_list with
     | [x_name] => exists sx, Logit._X m = XSeries sx
     | _ => exists d, Logit._X m = XFrame d
     end) /\
    Logit._X_model m = Logit.ro_X_model r /\
    Logit._y_model m = Logit.ro_y_model r /\
    Logit._results m = Logit.ro_results r /\
    Logit._odds_ratios m = Logit.ro_odds_ratios r /\
    Logit._X_model_standardized m = Logit.so_X_model_standardized s /\
    Logit._resid_model_standardized m = Logit.so_resid_model_standardized s /\
    Logit._results_output_standardized m = Logit.so_results_output_standardized s.
Proof.
  unfold Logit.__init__. intros E.
  bind_inv E y_name Hy. bind_inv E y0 Hy0. bind_inv E X0 HX0.
  bind_inv E r Hr. bind_inv E s Hs. injection E as <-. simpl.
  exists r, s. repeat split; auto.
  destruct regressors_list as [|x1 [|x2 l]].
  - bind_inv HX0 d Hd. injection HX0 as <-. eauto.
  - bind_inv HX0 sx Hsx. injection HX0 as <-. eauto.
  - bind_inv HX0 d Hd. injection HX0 as <-. eauto.
Qed.

End Construction.

(** ** Residuals and odds ratios *)

Lemma pd_Series_inv {A : Type} {L : Type} (name : string) (values : list A)
      (index : list L) (s : Series A L) :
  pd_Series name values index = Ok s ->
  s_index s = index /\ s_values s = values.
Proof.
  unfold pd_Series, s_index, s_values.
  destruct (Nat.eqb_spec (List.length values) (List.length index)) as [E|E];
    [|discriminate].
  intros [= <-]. simpl. split.
  - clear -E. revert values E.
    induction index as [|i index IH]; intros [|v values] E; simpl in *;
      try reflexivity; try discriminate.
    f_equal. apply IH. lia.
  - clear -E. revert values E.
    induction index as [|i index IH]; intros [|v values] E; simpl in *;
      try reflexivity; try discriminate.
    f_equal. apply IH. lia.
Qed.

Lemma series_drop_inv {A : Type} `{Scalar A} (label : string)
      (s p : Series A string) :
  series_drop label s = Ok p ->
  In label (s_index s) /\
  s_data p = filter (fun c => negb (String.eqb label (fst c))) (s_data s).
Proof.
  unfold series_drop. destruct (existsb _ _) eqn:E; [|discriminate].
  intros [= <-]. simpl. split; auto.
  apply existsb_exists in E. destruct E as (x & Hin & Hx).
  apply String.eqb_eq in Hx. subst. exact Hin.
Qed.

Section Derived.

Context {A : Type} `{Scalar A}.
Variable Logit_fit : Series A Z -> DataFrame A -> result (Results A).
Variable np_exp : A -> A.

(** C10.  The exposed standardized residual series holds the Pearson
    residuals of the fit on the RAW aligned sample (the fit stored in
    [results]), under the row index of the aligned dependent series. *)
Theorem resid_model_standardized_is_raw_resid_pearson
        (df : DataFrame A) (y_list regressors_list : list string)
        (a0 : pyobj A) (m : Logit.t A) :
  Logit.__init__ Logit_fit np_exp df y_list regressors_list a0 = Ok m ->
  Logit_fit (Logit.y_model m) (sm_add_constant_pandas (Logit.X_model m))
    = Ok (Logit.results m) /\
  s_index (Logit.resid_model_standardized m) = s_index (Logit.y_model m) /\
  s_values (Logit.resid_model_standardized m)
    = res_resid_pearson (Logit.results m).
Proof.
  intros E. apply init_inv in E.
  destruct E as (r & s & Hr & Hs & _ & HX & Hy & Hres & _ & _ & Hresid & _).
  apply regress_inv in Hr. destruct Hr as (p & _ & Hfit & _).
  apply standardize_inv in Hs.
  destruct Hs as (ro & ps & _ & Hser & _).
  apply pd_Series_inv in Hser. destruct Hser as [Hi Hv].
  unfold Logit.y_model, Logit.X_model, Logit.results, Logit.resid_model_standardized.
  rewrite Hy, HX, Hres, Hresid. auto.
Qed.

Lemma odds_ratios_of_raw_fit
      (df : DataFrame A) (y_list regressors_list : list string)
      (a0 : pyobj A) (m : Logit.t A) :
  Logit.__init__ Logit_fit np_exp df y_list regressors_list a0 = Ok m ->
  let raw := filter Logit.not_const (s_data (results_params (Logit.results m))) in
  s_data (Logit.odds_ratios m) = map (fun c => (fst c, np_exp (snd c))) raw /\
  s_index (Logit.odds_ratios m) = map fst raw /\
  ~ In "const" (s_index (Logit.odds_ratios m)) /\
  (forall name c,
      In (name, c) (s_data (results_params (Logit.results m))) ->
      name <> "const" ->
      In (name, np_exp c) (s_data (Logit.odds_ratios m))).
Proof.
  intros E raw. apply init_inv in E.
  destruct E as (r & s & Hr & _ & _ & _ & _ & Hres & Hodds & _).
  apply regress_inv in Hr. destruct Hr as (p & _ & _ & Hdrop & Ho).
  apply series_drop_inv in Hdrop. destruct Hdrop as [_ Hp].
  unfold Logit.odds_ratios, Logit.results in *.
  assert (Hd : s_data (Logit._odds_ratios m)
               = map (fun c => (fst c, np_exp (snd c))) raw).
  { rewrite Hodds, Ho. simpl. rewrite Hp. unfold raw. rewrite Hres. reflexivity. }
  assert (Hi : s_index (Logit._odds_ratios m) = map fst raw).
  { unfold s_index. rewrite Hd, map_map. reflexivity. }
  split; [exact Hd|]. split; [exact Hi|]. split.
  - rewrite Hi. intros Hin. apply in_map_iff in Hin.
    destruct Hin as (c & Hc & Hin). unfold raw in Hin.
    apply filter_In in Hin. destruct Hin as [_ Hne]. unfold Logit.not_const in Hne.
    rewrite Hc, String.eqb_refl in Hne. discriminate.
  - intros name c Hin Hne. rewrite Hd.
    apply in_map_iff. exists (name, c). split; [reflexivity|].
    unfold raw. apply filter_In. split; [exact Hin|]. unfold Logit.not_const. simpl.
    destruct (String.eqb_spec "const" name); [congruence | reflexivity].
Qed.

End Derived.

(** ** Prediction on concrete models *)

Section Prediction.

Local Open Scope float_scope.

Variable np_exp : float -> float.

(** C1 (not met by the code).  On the five cars the largest
    weight is 3.5.  In a batch, the second example has weight 100, above
    every training value, yet with [within_sample=True] its prediction is
    the solver's extrapolated value, exactly as with [within_sample=False]:
    the batch branch compares with the training minimum twice. *)
Theorem predict_batch_above_max_not_masked :
  x_max (Logit.X_model (Example.cars_model np_exp)) = [3.5; 360] /\
  Logit.predict np_exp (Example.cars_model np_exp)
    (NdArray (Arr2 2 [[2.5; 180]; [100; 200]])) true
  = Ok [Logit.logit_cdf np_exp 28807.5625; Logit.logit_cdf np_exp 32263.5] /\
  Logit.predict np_exp (Example.cars_model np_exp)
    (NdArray (Arr2 2 [[2.5; 180]; [100; 200]])) true
  = Logit.predict np_exp (Example.cars_model np_exp)
      (NdArray (Arr2 2 [[2.5; 180]; [100; 200]])) false.
Proof.
  repeat split; vm_compute; reflexivity.
Qed.

(** The sibling paths do mask: a batch example below the training minimum,
    and a single observation above the training maximum. *)
Lemma predict_masks_below_min_and_single_above_max :
  Logit.predict np_exp (Example.cars_model np_exp)
    (NdArray (Arr2 2 [[2.5; 180]; [1; 200]])) true
  = Ok [Logit.logit_cdf np_exp 28807.5625; nan] /\
  Logit.predict np_exp (Example.cars_model np_exp)
    (NdArray (Arr1 [100; 200])) true
  = Ok [nan].
Proof.
  split; vm_compute; reflexivity.
Qed.

(** C9 (not met by the code).  A single observation with a
    missing value, predicted with [within_sample=False]: the observation
    takes the batch branch, where [sm.add_constant] reads the 1-d array as
    one column, and the solver's prediction raises on the shape. *)
Theorem predict_single_nan_without_range_check_raises :
  Logit.predict np_exp (Example.cars_model np_exp)
    (NdArray (Arr1 [nan; 180])) false
  = Raise (ValueError "shapes not aligned").
Proof.
  vm_compute. reflexivity.
Qed.

(** With the range check the same observation is predicted NaN, and so is
    a NaN example of a batch, with or without the check. *)
Lemma predict_nan_examples_that_propagate :
  Logit.predict np_exp (Example.cars_model np_exp)
    (NdArray (Arr1 [nan; 180])) true = Ok [nan] /\
  Logit.predict np_exp (Example.cars_model np_exp)
    (NdArray (Arr2 2 [[2.5; 180]; [nan; 200]])) true
  = Ok [Logit.logit_cdf np_exp 28807.5625; nan] /\
  Logit.predict np_exp (Example.cars_model np_exp)
    (NdArray (Arr2 2 [[2.5; 180]; [nan; 200]])) false
  = Ok [Logit.logit_cdf np_exp 28807.5625; Logit.logit_cdf np_exp nan].
Proof.
  repeat split; vm_compute; reflexivity.
Qed.

End Prediction.

(** ** The shape check of [predict] *)

Section ShapeCheck.

Context {A : Type} `{Scalar A}.
Variable Logit_fit : Series A Z -> DataFrame A -> result (Results A).
Variable np_exp : A -> A.

Lemma aligned_sample_of_series (sx : Series A Z) (y0 : Series A Z)
      (Xm : XData A) (ym : Series A Z) :
  Logit.aligned_sample (XSeries sx) y0 = Ok (Xm, ym) ->
  exists sm, Xm = XSeries sm.
Proof.
  unfold Logit.aligned_sample, Logit.select_sample. intros E.
  bind_inv E Xm' HX. bind_inv E ym' Hy. injection E as <- <-.
  simpl in HX. bind_inv HX s' Hs. injection HX as <-. eauto.
Qed.

(** C5 (not met by the code).  A model fitted with exactly one
    regressor keeps its regressors as a Series, whose shape has one entry:
    reading the regressor count raises an index error for every input,
    whether its regressor count matches or not. *)
Theorem predict_one_regressor_raises_index_error
        (df : DataFrame A) (y_list : list string) (x_name : string)
        (a0 : pyobj A) (m : Logit.t A)
        (X_predict : array_like A) (within_sample : bool) :
  Logit.__init__ Logit_fit np_exp df y_list [x_name] a0 = Ok m ->
  Logit.predict np_exp m X_predict within_sample
  = Raise (IndexError "tuple index out of range").
Proof.
  intros E. apply init_inv in E.
  destruct E as (r & s & Hr & _ & (sx & HX) & HXm & _).
  apply regress_inv in Hr. destruct Hr as (p & Hal & _).
  rewrite HX in Hal. apply aligned_sample_of_series in Hal.
  destruct Hal as (sm & Hsm).
  unfold Logit.predict. rewrite HXm, Hsm. reflexivity.
Qed.

Lemma results_predict_raises (res : Results A) (exog : ndarray A) (e : exn) :
  Logit.results_predict np_exp res exog = Raise e ->
  e = ValueError "shapes not aligned".
Proof.
  unfold Logit.results_predict.
  destruct exog as [v|n rows];
    repeat match goal with
           | |- context [if ?c then _ else _] => destruct c
           end; intros E; congruence.
Qed.

Lemma sm_add_constant_numpy_raises (a : ndarray A) (e : exn) :
  sm_add_constant_numpy a = Raise e ->
  e = ValueError "zero-size array to reduction operation".
Proof.
  unfold sm_add_constant_numpy.
  destruct a as [v|n rows].
  - destruct (map _ v); [intros E; congruence|].
    destruct (existsb _ _); intros E; congruence.
  - destruct rows; [intros E; congruence|].
    destruct (existsb _ _); intros E; congruence.
Qed.

Lemma np_where_nan_raises (k : Logit.Mask) (preds : list A) (e : exn) :
  Logit.np_where_nan k preds = Raise e ->
  e = ValueError "operands could not be broadcast together".
Proof.
  unfold Logit.np_where_nan.
  destruct k; [intros E; congruence|].
  destruct (_ =? _)%nat; intros E; congruence.
Qed.

(** With two or more regressors the check is as specified: the
    shape error is raised exactly when the counts differ. *)
Lemma predict_shape_error_iff (m : Logit.t A) (d : DataFrame A)
      (X_predict : array_like A) (within_sample : bool) :
  Logit.X_model m = XFrame d ->
  (Logit.predict np_exp m X_predict within_sample
   = Raise (ValueError Logit.shape_message)
   <-> Logit.regressors_detected X_predict <> List.length (df_columns d)).
Proof.
  unfold Logit.X_model, Logit.predict, Logit.regressors_detected. intros ->.
  cbn [x_shape_1 bind].
  assert (N1 : ValueError "shapes not aligned" <> ValueError Logit.shape_message)
    by (unfold Logit.shape_message; congruence).
  assert (N2 : ValueError "zero-size array to reduction operation"
               <> ValueError Logit.shape_message)
    by (unfold Logit.shape_message; congruence).
  assert (N3 : ValueError "operands could not be broadcast together"
               <> ValueError Logit.shape_message)
    by (unfold Logit.shape_message; congruence).
  destruct (to_numpy X_predict) as [v|n rows];
    (match goal with
     | |- context [(?a =? ?b)%nat] => destruct (Nat.eqb_spec a b) as [E|E]
     end; cbn [negb]; [|split; [intros _; exact E | reflexivity]]);
    (split; [|intros N; contradiction]); intros F; exfalso;
    destruct within_sample; cbn [bind] in F;
    repeat match type of F with
           | bind ?c _ = _ =>
               let Hc := fresh "Hc" in
               destruct c eqn:Hc; cbn [bind] in F
           | (let '(_, _) := ?p in _) = _ => destruct p
           end;
    repeat match goal with
           | Hc : bind ?c _ = _ |- _ =>
               let Hd := fresh "Hd" in
               destruct c eqn:Hd; cbn [bind] in Hc
           end;
    repeat match goal with
           | Hc : Logit.results_predict _ _ _ = Raise _ |- _ =>
               apply results_predict_raises in Hc
           | Hc : sm_add_constant_numpy _ = Raise _ |- _ =>
               apply sm_add_constant_numpy_raises in Hc
           end;
    try (apply np_where_nan_raises in F);
    congruence.
Qed.

End ShapeCheck.

Lemma predict_one_regressor_witness :
  Logit.predict Example.exp_stub (Example.cars_model_wt Example.exp_stub)
    (NdArray (Arr2 1 [[3%float]])) true
  = Raise (IndexError "tuple index out of range").
Proof.
  apply (predict_one_regressor_raises_index_error
           Example.stub_fit Example.exp_stub Example.cars ["vs"] "wt"
           (PyFloat 0x1.999999999999ap-5%float)).
  vm_compute. reflexivity.
Defined.

Lemma resid_model_standardized_witness :
  Example.stub_fit
    (Logit.y_model (Example.cars_model Example.exp_stub))
    (sm_add_constant_pandas (Logit.X_model (Example.cars_model Example.exp_stub)))
  = Ok (Logit.results (Example.cars_model Example.exp_stub)) /\
  s_index (Logit.resid_model_standardized (Example.cars_model Example.exp_stub))
  = s_index (Logit.y_model (Example.cars_model Example.exp_stub)) /\
  s_values (Logit.resid_model_standardized (Example.cars_model Example.exp_stub))
  = res_resid_pearson (Logit.results (Example.cars_model Example.exp_stub)).
Proof.
  apply (resid_model_standardized_is_raw_resid_pearson
           Example.stub_fit Example.exp_stub Example.cars ["vs"] ["wt"; "disp"]
           (PyFloat 0x1.999999999999ap-5%float)).
  vm_compute. reflexivity.
Defined.

(** ** The aligned sample *)

(** C2 (not met by the code).  The rows of [cars_from_1] are
    labelled 1, 2, 3 and the outcome of row 3 is missing.  The labels that
    survive [dropna] on both sides are 1 and 2; used as POSITIONS they
    select the second and third rows: the complete row 1 is left out and
    the row with the missing outcome is in the sample. *)
Theorem aligned_sample_selects_labels_as_positions :
  Logit.set_intersection_list
    (x_index (x_dropna Example.cars_from_1_X))
    (s_index (series_dropna Example.cars_from_1_y)) = [1%Z; 2%Z] /\
  Logit.aligned_sample Example.cars_from_1_X Example.cars_from_1_y
  = Ok (XFrame (mkDataFrame ["wt"; "disp"]
                  [(2%Z, [2.25%float; 108%float]); (3%Z, [3.5%float; 360%float])]),
        mkSeries "vs" [(2%Z, 1%float); (3%Z, nan)]) /\
  existsb s_isnan (s_values (mkSeries "vs" [(2%Z, 1%float); (3%Z, nan)])) = true.
Proof.
  repeat split; vm_compute; reflexivity.
Qed.

(** Whatever order the common labels are listed in, the row with the
    missing outcome is selected. *)
Lemma select_sample_any_order (indices : list Z) :
  Permutation [1%Z; 2%Z] indices ->
  exists Xm ym,
    Logit.select_sample Example.cars_from_1_X Example.cars_from_1_y indices
    = Ok (Xm, ym) /\
    existsb s_isnan (s_values ym) = true.
Proof.
  intros P. apply Permutation_length_2_inv in P.
  destruct P as [-> | ->]; eexists; eexists; split;
    try (vm_compute; reflexivity).
Qed.

(** On a filtered table whose labels exceed its length the selection
    raises, and so does the construction, although no value is missing. *)
Lemma aligned_sample_filtered_table_raises :
  Logit.__init__ Example.stub_fit Example.exp_stub Example.cars_even
    ["vs"] ["wt"; "disp"] (PyFloat 0x1.999999999999ap-5%float)
  = Raise (IndexError "positional indexers are out-of-bounds").
Proof.
  vm_compute. reflexivity.
Qed.

(** ** The significance filter *)

Section SignificanceFilter.

Context {A : Type} `{Scalar A}.

(** C4, as the code has it.  An [alpha] whose type is not [float] raises a
    type error (a string, but also an integer such as 0 or -1); a float
    [alpha] with [alpha <= 0] or [alpha > 0.1] raises a value error.  In
    both cases the state is left as it was: nothing is clamped, nothing is
    returned. *)
Theorem significant_regressors_validates_alpha
        (alpha0 : pyobj A) (st : Logit.pystate A) :
  (type_is_float alpha0 = false ->
   Logit.significant_regressors alpha0 st
   = (Raise (TypeError "Ensure that alpha is a float number in range (0, 0.1]"), st))
  /\
  (forall a : A,
      alpha0 = PyFloat a ->
      (s_le a s_zero || s_lt s_lit_0_1 a)%bool = true ->
      Logit.significant_regressors alpha0 st
      = (Raise (ValueError
                  "Ensure significance level is a float number in range (0, 0.1]"),
         st)).
Proof.
  split.
  - destruct alpha0; simpl; intros E; try discriminate; reflexivity.
  - intros a -> E. unfold Logit.significant_regressors. rewrite E. reflexivity.
Qed.

Lemma iloc_pos_app {T : Type} (pre l : list T) (x : T) :
  iloc_pos (pre ++ x :: l) (Z.of_nat (List.length pre)) = Ok x.
Proof.
  unfold iloc_pos.
  destruct (Z.ltb_spec (Z.of_nat (List.length pre)) 0) as [N|_]; [lia|].
  rewrite length_app. cbn [List.length].
  destruct (Z.leb_spec 0 (Z.of_nat (List.length pre))) as [_|N]; [|lia].
  destruct (Z.ltb_spec (Z.of_nat (List.length pre))
                       (Z.of_nat (List.length pre + S (List.length l)))) as [_|N];
    [|lia].
  cbn [andb]. rewrite Nat2Z.id, nth_error_app2 by lia.
  rewrite Nat.sub_diag. reflexivity.
Qed.

Lemma mapM_ok_no_overflow {T : Type} (l : list T) (ps : list Z) (rs : list T) :
  mapM (iloc_pos l) ps = Ok rs -> existsb (overflows l) ps = false.
Proof.
  revert rs. induction ps as [|p ps IH]; intros rs E; [reflexivity|].
  cbn [mapM] in E. bind_inv E v Hv. bind_inv E vs Hvs.
  cbn [existsb]. unfold overflows at 1. rewrite Hv, (IH _ Hvs). reflexivity.
Qed.

Lemma iloc_list_of_mapM {T : Type} (l : list T) (ps : list Z) (rs : list T) :
  mapM (iloc_pos l) ps = Ok rs -> iloc_list l ps = Ok rs.
Proof.
  intros E. unfold iloc_list. rewrite (mapM_ok_no_overflow _ _ _ E). exact E.
Qed.

Lemma iloc_list_ok_inv {T : Type} (l : list T) (ps : list Z) (rs : list T) :
  iloc_list l ps = Ok rs -> mapM (iloc_pos l) ps = Ok rs.
Proof.
  unfold iloc_list. destruct (existsb _ _); [discriminate | auto].
Qed.

Lemma mapM_where_is_filter {T : Type} (g : T -> bool) (l pre : list T) :
  mapM (iloc_pos (pre ++ l))
       (map Z.of_nat (Logit.np_where_true (List.length pre) (map g l)))
  = Ok (filter g l).
Proof.
  revert pre. induction l as [|x l IH]; intros pre; [reflexivity|].
  cbn [map Logit.np_where_true filter].
  specialize (IH (pre ++ [x])).
  rewrite <- app_assoc, length_app in IH. cbn [List.length app] in IH.
  rewrite Nat.add_1_r in IH.
  destruct (g x).
  - cbn [map mapM].
    rewrite iloc_pos_app. cbn [bind]. rewrite IH. reflexivity.
  - exact IH.
Qed.

Lemma iloc_where_is_filter {T : Type} (g : T -> bool) (l pre : list T) :
  iloc_list (pre ++ l)
            (map Z.of_nat (Logit.np_where_true (List.length pre) (map g l)))
  = Ok (filter g l).
Proof.
  apply iloc_list_of_mapM, mapM_where_is_filter.
Qed.

Lemma np_where_true_nil_filter {T : Type} (g : T -> bool) (l : list T) (n : nat) :
  Logit.np_where_true n (map g l) = [] -> filter g l = [].
Proof.
  revert n. induction l as [|x l IH]; intros n; [reflexivity|].
  cbn [map Logit.np_where_true filter].
  destruct (g x); [discriminate | apply IH].
Qed.

Lemma filter_nil_np_where_true {T : Type} (g : T -> bool) (l : list T) (n : nat) :
  filter g l = [] -> Logit.np_where_true n (map g l) = [].
Proof.
  revert n. induction l as [|x l IH]; intros n; [reflexivity|].
  cbn [map Logit.np_where_true filter].
  destruct (g x); [discriminate | apply IH].
Qed.

Lemma nth_error_app_last {T : Type} (l : list T) (x : T) :
  nth_error (l ++ [x]) (List.length l) = Some x.
Proof.
  rewrite nth_error_app2 by lia. rewrite Nat.sub_diag. reflexivity.
Qed.

Lemma set_nth_app_last {T : Type} (l : list T) (x v : T) :
  Logit.set_nth (List.length l) v (l ++ [x]) = l ++ [v].
Proof.
  induction l as [|y l IH]; [reflexivity|]. cbn. rewrite IH. reflexivity.
Qed.

(** What a call with a valid [alpha] does on a model whose parameters
    include the constant: it returns the names above (or [None] when there
    are none), and leaves behind one new Series object, the p-values
    without the constant. *)
Lemma significant_regressors_run (a : A) (st : Logit.pystate A) :
  (s_le a s_zero || s_lt s_lit_0_1 a)%bool = false ->
  In "const" (map fst (res_table (Logit._results (Logit.st_self st)))) ->
  exists r,
    Logit.significant_regressors (PyFloat a) st
    = (Ok r,
       Logit.mkState (Logit.st_self st)
         (Logit.st_objects st ++
            [mkSeries "" (filter Logit.not_const
                            (s_data (results_pvalues
                                       (Logit._results (Logit.st_self st)))))])) /\
    r = match Logit.significant_names (Logit._results (Logit.st_self st)) a with
        | [] => None
        | n :: l => Some (n :: l)
        end.
Proof.
  intros Hv Hc. unfold Logit.significant_regressors. rewrite Hv.
  unfold Logit.getattr_pvalues, Logit.drop_inplace. cbn [Logit.st_objects Logit.st_self].
  rewrite nth_error_app_last.
  set (pv := results_pvalues (Logit._results (Logit.st_self st))).
  assert (Hd : series_drop "const" pv
               = Ok (mkSeries "" (filter Logit.not_const (s_data pv)))).
  { unfold series_drop.
    assert (Hex : existsb (String.eqb "const") (s_index pv) = true).
    { apply existsb_exists. exists "const". split; [|apply String.eqb_refl].
      unfold pv, s_index, results_pvalues, wrap_columns. cbn [s_data].
      rewrite map_map. cbn [fst]. exact Hc. }
    rewrite Hex. reflexivity. }
  rewrite Hd. cbn [Logit.st_objects Logit.st_self].
  rewrite set_nth_app_last, nth_error_app_last.
  set (kept := filter Logit.not_const (s_data pv)).
  unfold s_values. cbn [s_data]. rewrite map_map.
  pose proof (iloc_where_is_filter (fun c : string * A => s_le (snd c) a) kept [])
    as Hi.
  cbn [app List.length] in Hi.
  destruct (Logit.np_where_true 0 (map (fun c : string * A => s_le (snd c) a) kept))
    as [|i rest] eqn:Hw.
  - exists None. split; [reflexivity|].
    unfold Logit.significant_names. fold pv. fold kept.
    apply np_where_true_nil_filter in Hw. rewrite Hw. reflexivity.
  - unfold series_iloc. cbn [s_data s_name]. rewrite Hi. cbn [bind].
    eexists. split; [reflexivity|].
    unfold Logit.significant_names, s_index. fold pv. fold kept. cbn [s_data].
    destruct (filter (fun c : string * A => s_le (snd c) a) kept) as [|c cs] eqn:Hf;
      [|reflexivity].
    apply (filter_nil_np_where_true _ _ 0) in Hf. congruence.
Qed.

End SignificanceFilter.

Section FittedModel.

Context {A : Type} `{Scalar A}.
Variable Logit_fit : Series A Z -> DataFrame A -> result (Results A).
Variable np_exp : A -> A.

Lemma init_has_const (df : DataFrame A) (y_list regressors_list : list string)
      (a0 : pyobj A) (m : Logit.t A) :
  Logit.__init__ Logit_fit np_exp df y_list regressors_list a0 = Ok m ->
  In "const" (map fst (res_table (Logit._results m))).
Proof.
  intros E. apply init_inv in E.
  destruct E as (r & s & Hr & _ & _ & _ & _ & Hres & _).
  apply regress_inv in Hr. destruct Hr as (p & _ & _ & Hdrop & _).
  apply series_drop_inv in Hdrop. destruct Hdrop as [Hin _].
  rewrite Hres. unfold s_index, results_params, wrap_columns in Hin.
  cbn [s_data] in Hin. rewrite map_map in Hin. exact Hin.
Qed.

Lemma state_after_frame (c : Logit.public_call A) (st : Logit.pystate A) :
  Logit.st_self (Logit.state_after c st) = Logit.st_self st /\
  exists extra,
    Logit.st_objects (Logit.state_after c st) = Logit.st_objects st ++ extra.
Proof.
  assert (Hid : Logit.st_self st = Logit.st_self st /\
                exists extra, Logit.st_objects st = Logit.st_objects st ++ extra).
  { split; [reflexivity|]. exists []. rewrite app_nil_r. reflexivity. }
  destruct c; try exact Hid.
  cbn [Logit.state_after]. unfold Logit.significant_regressors.
  destruct alpha0; try exact Hid.
  destruct (s_le a s_zero || s_lt s_lit_0_1 a)%bool; [exact Hid|].
  unfold Logit.getattr_pvalues, Logit.drop_inplace.
  cbn [Logit.st_objects Logit.st_self].
  rewrite nth_error_app_last.
  destruct (series_drop "const" _) as [s'|e].
  - cbn [Logit.st_objects Logit.st_self].
    rewrite set_nth_app_last, nth_error_app_last.
    destruct (Logit.np_where_true _ _); cbn [snd Logit.st_objects Logit.st_self];
      [eauto|].
    destruct (series_iloc _ _); cbn [snd Logit.st_objects Logit.st_self]; eauto.
  - cbn [snd Logit.st_objects Logit.st_self]. eauto.
Qed.

(** C3.  On a fitted model, no read accessor and no operation changes the
    model or any object that existed before the call (a call to
    [significant_regressors] only adds an object of its own).  In
    particular the stored p-values keep their constant entry, and a second
    call of [significant_regressors] with the same valid [alpha] succeeds
    with the same result as the first. *)
Theorem public_calls_leave_stored_state_unchanged
        (df : DataFrame A) (y_list regressors_list : list string)
        (a0 : pyobj A) (m : Logit.t A) :
  Logit.__init__ Logit_fit np_exp df y_list regressors_list a0 = Ok m ->
  forall objs : list (Series A string),
    (forall c : Logit.public_call A,
        Logit.st_self (Logit.state_after c (Logit.mkState m objs)) = m /\
        exists extra,
          Logit.st_objects (Logit.state_after c (Logit.mkState m objs))
          = objs ++ extra) /\
    (forall a : A,
        (s_le a s_zero || s_lt s_lit_0_1 a)%bool = false ->
        exists r st1 st2,
          Logit.significant_regressors (PyFloat a) (Logit.mkState m objs)
          = (Ok r, st1) /\
          Logit.significant_regressors (PyFloat a) st1 = (Ok r, st2) /\
          results_pvalues (Logit.results (Logit.st_self st1))
          = results_pvalues (Logit.results m) /\
          In "const" (s_index (results_pvalues (Logit.results (Logit.st_self st1))))).
Proof.
  intros E objs. pose proof (init_has_const _ _ _ _ _ E) as Hc. split.
  - intros c. apply (state_after_frame c (Logit.mkState m objs)).
  - intros a Hv.
    destruct (significant_regressors_run a (Logit.mkState m objs) Hv Hc)
      as (r & Hrun & Hr).
    cbn [Logit.st_self Logit.st_objects] in Hrun, Hr.
    set (st1 := Logit.mkState m
                  (objs ++ [mkSeries "" (filter Logit.not_const
                                           (s_data (results_pvalues (Logit._results m))))]))
      in *.
    destruct (significant_regressors_run a st1 Hv Hc) as (r' & Hrun' & Hr').
    cbn [Logit.st_self Logit.st_objects st1] in Hrun', Hr'.
    exists r, st1. eexists. split; [exact Hrun|]. split.
    + rewrite Hrun'. rewrite Hr', <- Hr. reflexivity.
    + split; [reflexivity|].
      unfold s_index, results_pvalues, wrap_columns, Logit.results. cbn [s_data].
      rewrite map_map. exact Hc.
Qed.

(** C6.  For two valid significance levels [a1 < a2], both calls succeed
    and every name returned for [a1] is returned for [a2]. *)
Theorem significant_regressors_monotone
        (df : DataFrame A) (y_list regressors_list : list string)
        (a0 : pyobj A) (m : Logit.t A) (a1 a2 : A)
        (objs1 objs2 : list (Series A string)) :
  le_lt_trans_law A ->
  Logit.__init__ Logit_fit np_exp df y_list regressors_list a0 = Ok m ->
  (s_le a1 s_zero || s_lt s_lit_0_1 a1)%bool = false ->
  (s_le a2 s_zero || s_lt s_lit_0_1 a2)%bool = false ->
  s_lt a1 a2 = true ->
  exists r1 r2,
    fst (Logit.significant_regressors (PyFloat a1) (Logit.mkState m objs1)) = Ok r1 /\
    fst (Logit.significant_regressors (PyFloat a2) (Logit.mkState m objs2)) = Ok r2 /\
    incl (Logit.names_of r1) (Logit.names_of r2).
Proof.
  intros Law E Hv1 Hv2 Hlt. pose proof (init_has_const _ _ _ _ _ E) as Hc.
  destruct (significant_regressors_run a1 (Logit.mkState m objs1) Hv1 Hc)
    as (r1 & Hrun1 & Hr1).
  destruct (significant_regressors_run a2 (Logit.mkState m objs2) Hv2 Hc)
    as (r2 & Hrun2 & Hr2).
  cbn [Logit.st_self] in *.
  exists r1, r2. rewrite Hrun1, Hrun2. cbn [fst]. repeat split.
  assert (N : forall a r,
             r = match Logit.significant_names (Logit._results m) a with
                 | [] => None
                 | n :: l => Some (n :: l)
                 end ->
             Logit.names_of r = Logit.significant_names (Logit._results m) a).
  { intros a r ->. destruct (Logit.significant_names _ a); reflexivity. }
  rewrite (N _ _ Hr1), (N _ _ Hr2). unfold Logit.significant_names.
  intros n Hin. apply in_map_iff in Hin. destruct Hin as (c & <- & Hin).
  apply filter_In in Hin. destruct Hin as [Hin Hle].
  apply in_map. apply filter_In. split; [exact Hin|].
  exact (Law _ _ _ Hle Hlt).
Qed.

End FittedModel.

Lemma significant_regressors_validation_witness :
  Logit.significant_regressors (PyStr "str")
    (Logit.mkState (Example.trial_model Example.exp_stub) [])
  = (Raise (TypeError "Ensure that alpha is a float number in range (0, 0.1]"),
     Logit.mkState (Example.trial_model Example.exp_stub) []) /\
  Logit.significant_regressors (PyFloat 0x1.c28f5c28f5c29p-4%float)
    (Logit.mkState (Example.trial_model Example.exp_stub) [])
  = (Raise (ValueError
              "Ensure significance level is a float number in range (0, 0.1]"),
     Logit.mkState (Example.trial_model Example.exp_stub) []) /\
  Logit.significant_regressors (PyFloat 0%float)
    (Logit.mkState (Example.trial_model Example.exp_stub) [])
  = (Raise (ValueError
              "Ensure significance level is a float number in range (0, 0.1]"),
     Logit.mkState (Example.trial_model Example.exp_stub) []) /\
  Logit.significant_regressors (PyFloat (-1)%float)
    (Logit.mkState (Example.trial_model Example.exp_stub) [])
  = (Raise (ValueError
              "Ensure significance level is a float number in range (0, 0.1]"),
     Logit.mkState (Example.trial_model Example.exp_stub) []) /\
  Logit.significant_regressors (PyFloat infinity)
    (Logit.mkState (Example.trial_model Example.exp_stub) [])
  = (Raise (ValueError
              "Ensure significance level is a float number in range (0, 0.1]"),
     Logit.mkState (Example.trial_model Example.exp_stub) []).
Proof.
  split.
  - apply (proj1 (significant_regressors_validates_alpha (PyStr "str") _)).
    reflexivity.
  - repeat split;
      match goal with
      | |- Logit.significant_regressors (PyFloat ?a) ?st = _ =>
          apply (proj2 (significant_regressors_validates_alpha (PyFloat a) st) a
                       eq_refl)
      end; vm_compute; reflexivity.
Defined.

(** The integers 0 and -1, as the specification and the tests write them,
    raise a type error, not a value error. *)
Lemma significant_regressors_int_alpha_type_error :
  fst (Logit.significant_regressors (PyInt 0)
         (Logit.mkState (Example.trial_model Example.exp_stub) []))
  = Raise (TypeError "Ensure that alpha is a float number in range (0, 0.1]") /\
  fst (Logit.significant_regressors (PyInt (-1))
         (Logit.mkState (Example.trial_model Example.exp_stub) []))
  = Raise (TypeError "Ensure that alpha is a float number in range (0, 0.1]").
Proof.
  split; reflexivity.
Qed.

Lemma public_calls_witness :
  Logit.st_self
    (Logit.state_after
       (Logit.Call_significant_regressors (PyFloat 0.09375%float))
       (Logit.mkState (Example.trial_model Example.exp_stub) []))
  = Example.trial_model Example.exp_stub /\
  exists st1 st2,
    Logit.significant_regressors (PyFloat 0.09375%float)
      (Logit.mkState (Example.trial_model Example.exp_stub) [])
    = (Ok (Some ["a"; "b"]), st1) /\
    Logit.significant_regressors (PyFloat 0.09375%float) st1
    = (Ok (Some ["a"; "b"]), st2) /\
    In "const" (s_index (results_pvalues (Logit.results (Logit.st_self st1)))).
Proof.
  assert (E : Logit.__init__ Example.stub_fit Example.exp_stub Example.trial
                ["y"] ["a"; "b"; "c"] (PyFloat 0x1.999999999999ap-5%float)
              = Ok (Example.trial_model Example.exp_stub))
    by (vm_compute; reflexivity).
  destruct (public_calls_leave_stored_state_unchanged _ _ _ _ _ _ _ E [])
    as [Hframe Hagain].
  split; [apply Hframe|].
  destruct (Hagain 0.09375%float) as (r & st1 & st2 & H1 & H2 & _ & Hc);
    [vm_compute; reflexivity|].
  assert (Hr : r = Some ["a"; "b"]).
  { assert (F : fst (Logit.significant_regressors (PyFloat 0.09375%float)
                       (Logit.mkState (Example.trial_model Example.exp_stub) []))
                = Ok (Some ["a"; "b"])) by (vm_compute; reflexivity).
    rewrite H1 in F. cbn [fst] in F. congruence. }
  subst r. exists st1, st2. auto.
Defined.

Lemma significant_regressors_monotone_witness :
  exists r1 r2,
    fst (Logit.significant_regressors (PyFloat 0.03125%float)
           (Logit.mkState (Example.trial_model Example.exp_stub) [])) = Ok r1 /\
    fst (Logit.significant_regressors (PyFloat 0.09375%float)
           (Logit.mkState (Example.trial_model Example.exp_stub) [])) = Ok r2 /\
    incl (Logit.names_of r1) (Logit.names_of r2).
Proof.
  apply (significant_regressors_monotone
           Example.stub_fit Example.exp_stub Example.trial ["y"] ["a"; "b"; "c"]
           (PyFloat 0x1.999999999999ap-5%float));
    try (vm_compute; reflexivity).
  exact float_le_lt_trans.
Defined.

Lemma odds_ratios_float_example :
  s_data (Logit.odds_ratios (Example.trial_model Example.exp_stub))
  = [("a", Example.exp_stub 1.5%float); ("b", Example.exp_stub 2%float);
     ("c", Example.exp_stub 0.25%float)].
Proof.
  vm_compute. reflexivity.
Qed.

(** ** Long's standardization, in exact arithmetic *)

Section Long.

Local Open Scope R_scope.

Lemma sum_squares_nonneg (f : R -> R) (l : list R) (acc : R) :
  0 <= acc -> 0 <= fold_left Rplus (map (fun x => f x * f x) l) acc.
Proof.
  revert acc. induction l as [|x l IH]; intros acc Hacc; simpl; [exact Hacc|].
  apply IH. pose proof (Rle_0_sqr (f x)) as S. unfold Rsqr in S. lra.
Qed.

Lemma pd_var_nonneg (l : list R) : 0 <= pd_var l.
Proof.
  unfold pd_var, s_sum.
  cbn [s_div s_sub s_mul s_add s_zero s_of_nat real_scalar].
  set (n := (List.length (notna l) - 1)%nat).
  pose proof (sum_squares_nonneg (fun x => x - pd_mean l) (notna l) 0 (Rle_refl 0))
    as S.
  unfold Rdiv. destruct n as [|k].
  - simpl INR. rewrite Rinv_0. lra.
  - apply Rmult_le_pos; [exact S|].
    left. apply Rinv_0_lt_compat. apply lt_0_INR. lia.
Qed.

Lemma pd_std_squared (l : list R) : pd_std l * pd_std l = pd_var l.
Proof.
  unfold pd_std. cbn [s_sqrt real_scalar]. apply sqrt_sqrt. apply pd_var_nonneg.
Qed.

Lemma var_ystar_real (l : list R) :
  s_add (s_mul (pd_std l) (pd_std l)) (s_div (s_mul s_pi s_pi) (s_of_nat 3))
  = pd_var l + PI * PI / 3.
Proof.
  change (pd_std l * pd_std l + PI * PI / INR 3 = pd_var l + PI * PI / 3).
  rewrite pd_std_squared. replace (INR 3) with 3 by (simpl; lra). reflexivity.
Qed.

Lemma in_align_to {A : Type} `{Scalar A} (index : list string)
      (s : Series A string) (name : string) (v : A) :
  In (name, v) (align_to index s) ->
  In name index /\ v = assoc_or_nan name (s_data s).
Proof.
  unfold align_to. intros Hin. apply in_map_iff in Hin.
  destruct Hin as (n & [= <- <-] & Hn). auto.
Qed.

End Long.

(** The constructed model of the exact-arithmetic example. *)

Lemma bind_intro {T U : Type} (c : result T) (k : T -> result U) (v : T) :
  c = Ok v -> (exists m, k v = Ok m) -> exists m, bind c k = Ok m.
Proof. intros -> E. exact E. Qed.

Lemma is_nonzero_const_pair (a b : R) : a <> b -> is_nonzero_const [a; b] = false.
Proof.
  intros N. unfold is_nonzero_const, np_ptp. cbn [fold_left].
  unfold np_maximum, np_minimum. cbn [s_isnan real_scalar s_lt s_sub s_eq s_zero].
  assert (Hd : Reqb ((if Rltb a b then b else a) - (if Rltb b a then b else a)) 0
               = false).
  { apply Reqb_false_iff. unfold Rltb.
    destruct (Rlt_dec a b), (Rlt_dec b a); lra. }
  rewrite Hd. reflexivity.
Qed.

Lemma pd_var_pair (a b : R) : pd_var [a; b] = ((a - b) * (a - b) / 2)%R.
Proof.
  unfold pd_var, pd_mean, notna, s_sum.
  cbn [filter s_isnan real_scalar negb map fold_left List.length Nat.sub
       s_add s_sub s_mul s_div s_zero s_of_nat INR].
  field.
Qed.

Lemma pd_std_pair_pos (a b : R) : a <> b -> (0 < pd_std [a; b])%R.
Proof.
  intros N. unfold pd_std. cbn [s_sqrt real_scalar]. rewrite pd_var_pair.
  apply sqrt_lt_R0. nra.
Qed.

Lemma zscore_pair (mu a b : R) :
  a <> b ->
  Logit.zscore mu (pd_std [a; b]) a <> Logit.zscore mu (pd_std [a; b]) b.
Proof.
  intros N. pose proof (pd_std_pair_pos a b N) as P.
  unfold Logit.zscore. cbn [s_div s_sub real_scalar]. intros E.
  apply N. unfold Rdiv in E. apply Rmult_eq_reg_r in E; [lra|].
  apply Rinv_neq_0_compat. lra.
Qed.

Lemma real_raw_design :
  sm_add_constant_pandas
    (XFrame (mkDataFrame ["a"; "b"] [(0%Z, [0%R; 1%R]); (1%Z, [2%R; 0%R])]))
  = mkDataFrame ["const"; "a"; "b"]
      [(0%Z, [1%R; 0%R; 1%R]); (1%Z, [1%R; 2%R; 0%R])].
Proof.
  unfold sm_add_constant_pandas.
  cbn [x_as_frame df_cols df_col df_columns df_rows List.length seq map nth
       snd fst existsb].
  rewrite !is_nonzero_const_pair by lra. reflexivity.
Qed.

Lemma real_standardized_design :
  sm_add_constant_pandas
    (Logit.x_standardize
       (XFrame (mkDataFrame ["a"; "b"] [(0%Z, [0%R; 1%R]); (1%Z, [2%R; 0%R])])))
  = mkDataFrame ["const"; "a"; "b"]
      [(0%Z, [1%R;
              Logit.zscore (pd_mean [0%R; 2%R]) (pd_std [0%R; 2%R]) 0%R;
              Logit.zscore (pd_mean [1%R; 0%R]) (pd_std [1%R; 0%R]) 1%R]);
       (1%Z, [1%R;
              Logit.zscore (pd_mean [0%R; 2%R]) (pd_std [0%R; 2%R]) 2%R;
              Logit.zscore (pd_mean [1%R; 0%R]) (pd_std [1%R; 0%R]) 0%R])].
Proof.
  unfold sm_add_constant_pandas, Logit.x_standardize.
  cbn [x_as_frame df_cols df_col df_columns df_rows List.length seq map nth
       snd fst existsb].
  rewrite !is_nonzero_const_pair; [reflexivity | |]; apply zscore_pair; lra.
Qed.

Lemma real_model_constructed :
  Logit.__init__ Example.stub_fit exp Example.real_table ["y"] ["a"; "b"]
                 (PyFloat (1 / 20)%R)
  = Ok Example.real_model.
Proof.
  assert (E : exists m,
             Logit.__init__ Example.stub_fit exp Example.real_table ["y"] ["a"; "b"]
                            (PyFloat (1 / 20)%R) = Ok m).
  { unfold Logit.__init__.
    eapply bind_intro; [reflexivity|].
    eapply bind_intro; [reflexivity|].
    eapply bind_intro; [reflexivity|].
    eapply bind_intro.
    { unfold Logit._regress.
      change (Logit.aligned_sample _ _)
        with (Ok (XFrame (mkDataFrame ["a"; "b"]
                            [(0%Z, [0%R; 1%R]); (1%Z, [2%R; 0%R])]),
                  mkSeries "y" [(0%Z, 0%R); (1%Z, 1%R)])).
      cbn [bind]. rewrite real_raw_design. reflexivity. }
    eapply bind_intro.
    { unfold Logit._standardize_results. cbn [Logit.ro_X_model Logit.ro_y_model].
      rewrite real_standardized_design. reflexivity. }
    eexists. reflexivity. }
  destruct E as [m E]. unfold Example.real_model. rewrite E. reflexivity.
Qed.

(** ** What the two branches of [predict] compute, in general *)

Section Branches.

Context {A : Type} `{Scalar A}.
Variable np_exp : A -> A.

Lemma zip_with_cons {T U V : Type} (f : T -> U -> V) (a : T) (b : U)
      (l : list T) (l' : list U) :
  Logit.zip_with f (a :: l) (b :: l') = f a b :: Logit.zip_with f l l'.
Proof. reflexivity. Qed.

Lemma zip_with_le_twice (mins row : list A) :
  Logit.zip_with andb
    (Logit.zip_with s_le mins row)
    (Logit.zip_with (fun x m => s_le m x) row mins)
  = Logit.zip_with s_le mins row.
Proof.
  unfold Logit.zip_with. revert row.
  induction mins as [|m mins IH]; intros [|x row]; try reflexivity.
  cbn [combine map fst snd]. rewrite andb_diag. f_equal. apply IH.
Qed.

Lemma batch_mask_uses_min_only (mins : list A) (rows : list (list A)) :
  map (forallb (fun b : bool => b))
      (Logit.zip_with (Logit.zip_with andb)
         (Logit.zip_with (Logit.zip_with s_le)
                         (repeat mins (List.length rows)) rows)
         (Logit.zip_with (Logit.zip_with (fun x m => s_le m x))
                         rows (repeat mins (List.length rows))))
  = map (fun row => forallb (fun b : bool => b) (Logit.zip_with s_le mins row)) rows.
Proof.
  induction rows as [|row rows IH]; [reflexivity|].
  cbn [List.length repeat]. rewrite !zip_with_cons. cbn [map].
  rewrite zip_with_le_twice. f_equal. exact IH.
Qed.

(** On a batch, [within_sample=True] masks an example exactly when one of
    its values is not at least the training minimum of its regressor: the
    training maximum is never consulted. *)
Lemma predict_batch_mask (m : Logit.t A) (d : DataFrame A)
      (rows : list (list A)) :
  Logit.X_model m = XFrame d ->
  Logit.predict np_exp m
    (NdArray (Arr2 (List.length (df_columns d)) rows)) true
  = (exog <- sm_add_constant_numpy (Arr2 (List.length (df_columns d)) rows) ;;
     preds <- Logit.results_predict np_exp (Logit.results m) exog ;;
     Logit.np_where_nan
       (Logit.MaskVec
          (map (fun row =>
                  forallb (fun b : bool => b)
                          (Logit.zip_with s_le (x_min (XFrame d)) row))
               rows))
       preds).
Proof.
  unfold Logit.X_model, Logit.results, Logit.predict. intros ->.
  cbn [x_shape_1 bind to_numpy]. rewrite Nat.eqb_refl. cbn [negb].
  rewrite batch_mask_uses_min_only.
  destruct (sm_add_constant_numpy _); reflexivity.
Qed.

(** A single observation predicted with [within_sample=False] on a model
    with two or more regressors (and one parameter more): the prediction
    raises, whatever the values. *)
Lemma predict_single_without_range_check_raises
      (m : Logit.t A) (d : DataFrame A) (v : list A) :
  Logit.X_model m = XFrame d ->
  List.length v = List.length (df_columns d) ->
  2 <= List.length (df_columns d) ->
  List.length (res_table (Logit.results m)) = S (List.length (df_columns d)) ->
  Logit.predict np_exp m (NdArray (Arr1 v)) false
  = Raise (ValueError "shapes not aligned").
Proof.
  unfold Logit.X_model, Logit.results, Logit.predict. intros -> Hv Hk Hp.
  cbn [x_shape_1 bind to_numpy]. rewrite Hv, Nat.eqb_refl. cbn [negb].
  unfold sm_add_constant_numpy.
  destruct v as [|x v]; [cbn in Hv; lia|].
  cbn [map].
  assert (Hlen : List.length (s_values (results_params (Logit._results m)))
                 = S (List.length (df_columns d))).
  { unfold s_values, results_params, wrap_columns. cbn [s_data].
    rewrite !length_map. exact Hp. }
  destruct (existsb is_nonzero_const _); cbn [bind];
    unfold Logit.results_predict; rewrite Hlen;
    match goal with
    | |- context [(?a =? ?b)%nat] => destruct (Nat.eqb_spec a b) as [E|E]
    end; try lia; reflexivity.
Qed.

End Branches.

(** ** The index of the aligned sample *)

Section AlignedIndex.

Context {A : Type} `{Scalar A}.

Lemma iloc_pos_map {T U : Type} (f : T -> U) (l : list T) (p : Z) :
  iloc_pos (map f l) p
  = match iloc_pos l p with
    | Ok v => Ok (f v)
    | Raise e => Raise e
    end.
Proof.
  unfold iloc_pos. rewrite length_map.
  destruct (_ && _)%bool; [|destruct (fits_int64 p); reflexivity].
  rewrite nth_error_map. destruct (nth_error l _); reflexivity.
Qed.

Lemma iloc_list_map {T U : Type} (f : T -> U) (l : list T) (ps : list Z) :
  iloc_list (map f l) ps
  = match iloc_list l ps with
    | Ok r => Ok (map f r)
    | Raise e => Raise e
    end.
Proof.
  unfold iloc_list.
  assert (Ho : existsb (overflows (map f l)) ps = existsb (overflows l) ps).
  { induction ps as [|p ps IH]; [reflexivity|]. cbn [existsb]. rewrite IH.
    f_equal. unfold overflows. rewrite iloc_pos_map.
    destruct (iloc_pos l p) as [v|[]]; reflexivity. }
  rewrite Ho. destruct (existsb (overflows l) ps); [reflexivity|]. clear Ho.
  induction ps as [|p ps IH]; [reflexivity|].
  cbn [mapM]. rewrite IH, iloc_pos_map.
  destruct (iloc_pos l p); [|reflexivity]. cbn [bind].
  destruct (mapM (iloc_pos l) ps); reflexivity.
Qed.

(** The part of the invariant the code does keep: the regressors and the
    outcome are columns of one table, both are selected at the same
    positions, so the two sides of the aligned sample carry the same row
    labels, in the same order. *)
Lemma aligned_sample_same_index (X0 : XData A) (y0 : Series A Z)
      (Xm : XData A) (ym : Series A Z) :
  x_index X0 = s_index y0 ->
  Logit.aligned_sample X0 y0 = Ok (Xm, ym) ->
  x_index Xm = s_index ym.
Proof.
  unfold Logit.aligned_sample, Logit.select_sample.
  set (indices := Logit.set_intersection_list _ _). intros Hidx E.
  bind_inv E Xm' HX. bind_inv E ym' Hy. injection E as <- <-.
  unfold series_iloc in Hy. bind_inv Hy dy Hdy. injection Hy as <-.
  pose proof (iloc_list_map fst (s_data y0) indices) as Py.
  rewrite Hdy in Py.
  change (s_index (mkSeries (s_name y0) dy)) with (map fst dy).
  destruct X0 as [sx|d]; cbn [x_iloc] in HX.
  - unfold series_iloc in HX. bind_inv HX sx' Hsx. bind_inv Hsx dx Hdx.
    injection Hsx as <-. injection HX as <-.
    change (x_index (XSeries (mkSeries (s_name sx) dx))) with (map fst dx).
    pose proof (iloc_list_map fst (s_data sx) indices) as Px.
    rewrite Hdx in Px.
    change (map fst (s_data sx)) with (x_index (XSeries sx)) in Px.
    rewrite Hidx in Px. unfold s_index in Px. congruence.
  - unfold df_iloc in HX. bind_inv HX d' Hd. bind_inv Hd dx Hdx.
    injection Hd as <-. injection HX as <-.
    change (x_index (XFrame (mkDataFrame (df_columns d) dx))) with (map fst dx).
    pose proof (iloc_list_map fst (df_rows d) indices) as Px.
    rewrite Hdx in Px.
    change (map fst (df_rows d)) with (x_index (XFrame d)) in Px.
    rewrite Hidx in Px. unfold s_index in Px. congruence.
Qed.

End AlignedIndex.

(** ** The standard deviation looked up for a regressor *)

Section Columns.

Context {A : Type} `{Scalar A}.

Lemma assoc_combine_seq (h : nat -> A) (name : string) (cols : list string)
      (k i : nat) :
  index_of name cols = Some i ->
  assoc_or_nan name (combine cols (map h (seq k (List.length cols)))) = h (k + i).
Proof.
  revert k i. induction cols as [|c cols IH]; intros k i; [discriminate|].
  cbn [index_of List.length seq map combine assoc_or_nan].
  destruct (String.eqb c name).
  - intros [= <-]. rewrite Nat.add_0_r. reflexivity.
  - destruct (index_of name cols) as [j|] eqn:Hj; [|discriminate].
    intros [= <-]. rewrite (IH (S k) j eq_refl). f_equal. lia.
Qed.

(** For a table of regressors, the value [_standardize_results] multiplies
    the raw coefficient of [name] with is the sample standard deviation
    ([ddof=1]) of the column of that name. *)
Lemma stdev_at_frame (d : DataFrame A) (name : string) (i : nat) :
  index_of name (df_columns d) = Some i ->
  Logit.stdev_at (Logit.x_std (XFrame d)) name = pd_std (df_col d i).
Proof.
  intros Hi. unfold Logit.stdev_at, Logit.x_std, df_cols. cbn [s_data].
  rewrite map_map.
  exact (assoc_combine_seq (fun j => pd_std (df_col d j)) name (df_columns d) 0 i Hi).
Qed.

End Columns.

(** ** The two fits of the five cars *)

(** The stored residual series is the raw fit's; the fit on the
    standardized regressors has other residuals. *)
Lemma resid_of_raw_fit_example :
  nth 0 (s_values (Logit.resid_model_standardized
                     (Example.cars_model Example.exp_stub))) nan
  = (-25607.890625)%float /\
  PrimFloat.eqb
    (nth 0 (match Example.stub_fit
                    (Logit.y_model (Example.cars_model Example.exp_stub))
                    (sm_add_constant_pandas
                       (Logit.X_model_standardized
                          (Example.cars_model Example.exp_stub))) with
            | Ok r => res_resid_pearson r
            | Raise _ => []
            end) nan)
    (-25607.890625)%float = false.
Proof.
  split; vm_compute; reflexivity.
Qed.

(** * Further properties of the class *)

(** ** What construction takes from the table *)

Section Inputs.

Context {A : Type} `{Scalar A}.
Variable Logit_fit : Series A Z -> DataFrame A -> result (Results A).
Variable np_exp : A -> A.

Lemma df_getitem_inv (d : DataFrame A) (name : string) (s : Series A Z) :
  df_getitem d name = Ok s -> s_index s = df_index d /\ s_name s = name.
Proof.
  unfold df_getitem. destruct (index_of name (df_columns d)); [|discriminate].
  intros [= <-]. unfold s_index, df_index. cbn [s_data s_name].
  rewrite map_map. auto.
Qed.

Lemma df_getitem_list_inv (d : DataFrame A) (names : list string) (d' : DataFrame A) :
  df_getitem_list d names = Ok d' ->
  df_index d' = df_index d /\ df_columns d' = names.
Proof.
  unfold df_getitem_list. intros E. bind_inv E idx Hidx. injection E as <-.
  unfold df_index. cbn [df_rows df_columns]. rewrite map_map. auto.
Qed.

Lemma init_data (df : DataFrame A) (y_list regressors_list : list string)
      (a0 : pyobj A) (m : Logit.t A) :
  Logit.__init__ Logit_fit np_exp df y_list regressors_list a0 = Ok m ->
  (exists y_name, y_list = [y_name] /\ df_getitem df y_name = Ok (Logit._y m)) /\
  (forall x_name, regressors_list = [x_name] ->
                  exists sx, Logit._X m = XSeries sx /\ df_getitem df x_name = Ok sx) /\
  (List.length regressors_list <> 1 ->
   exists d, Logit._X m = XFrame d /\ df_getitem_list df regressors_list = Ok d) /\
  x_index (Logit._X m) = df_index df /\
  s_index (Logit._y m) = df_index df.
Proof.
  unfold Logit.__init__. intros E.
  bind_inv E y_name Hy. bind_inv E y0 Hy0. bind_inv E X0 HX0.
  bind_inv E r Hr. bind_inv E s Hs. injection E as <-.
  cbn [Logit._X Logit._y].
  assert (Hyl : y_list = [y_name]).
  { destruct y_list as [|n [|n' l]]; try discriminate. congruence. }
  assert (HX : (forall x_name, regressors_list = [x_name] ->
                  exists sx, X0 = XSeries sx /\ df_getitem df x_name = Ok sx) /\
               (List.length regressors_list <> 1 ->
                exists d, X0 = XFrame d /\ df_getitem_list df regressors_list = Ok d)).
  { destruct regressors_list as [|x1 [|x2 l]].
    - bind_inv HX0 d Hd. injection HX0 as <-. split; [discriminate | eauto].
    - bind_inv HX0 sx Hsx. injection HX0 as <-. split.
      + intros x [= <-]. eauto.
      + cbn. intros N. contradiction.
    - bind_inv HX0 d Hd. injection HX0 as <-. split; [discriminate | eauto]. }
  destruct HX as [HX1 HXn].
  repeat split; eauto.
  - destruct regressors_list as [|x1 [|x2 l]].
    + destruct HXn as (d & -> & Hd); [cbn; lia|].
      apply df_getitem_list_inv in Hd. tauto.
    + destruct (HX1 x1 eq_refl) as (sx & -> & Hsx).
      apply df_getitem_inv in Hsx. tauto.
    + destruct HXn as (d & -> & Hd); [cbn; lia|].
      apply df_getitem_list_inv in Hd. tauto.
  - apply df_getitem_inv in Hy0. tauto.
Qed.

Lemma aligned_sample_of_frame (d : DataFrame A) (y0 : Series A Z)
      (Xm : XData A) (ym : Series A Z) :
  Logit.aligned_sample (XFrame d) y0 = Ok (Xm, ym) ->
  exists d', Xm = XFrame d' /\ df_columns d' = df_columns d.
Proof.
  unfold Logit.aligned_sample, Logit.select_sample. intros E.
  bind_inv E Xm' HX. bind_inv E ym' Hy. injection E as <- <-.
  cbn [x_iloc] in HX. bind_inv HX d' Hd. injection HX as <-.
  unfold df_iloc in Hd. bind_inv Hd rows Hrows. injection Hd as <-.
  eexists. split; reflexivity.
Qed.

Lemma init_sample (df : DataFrame A) (y_list regressors_list : list string)
      (a0 : pyobj A) (m : Logit.t A) :
  Logit.__init__ Logit_fit np_exp df y_list regressors_list a0 = Ok m ->
  Logit.aligned_sample (Logit._X m) (Logit._y m)
  = Ok (Logit._X_model m, Logit._y_model m).
Proof.
  intros E. apply init_inv in E.
  destruct E as (r & s & Hr & _ & _ & HX & Hy & _).
  apply regress_inv in Hr. destruct Hr as (p & Hal & _).
  rewrite HX, Hy. exact Hal.
Qed.

(** X1.  In every constructed model the aligned regressors and the
    aligned outcome carry the same row labels, in the same order, whatever
    the labels of the table are. *)
Theorem fitted_sample_shares_row_labels
        (df : DataFrame A) (y_list regressors_list : list string)
        (a0 : pyobj A) (m : Logit.t A) :
  Logit.__init__ Logit_fit np_exp df y_list regressors_list a0 = Ok m ->
  x_index (Logit.X_model m) = s_index (Logit.y_model m).
Proof.
  intros E. pose proof (init_sample _ _ _ _ _ E) as Hal.
  apply init_data in E. destruct E as (_ & _ & _ & HiX & Hiy).
  apply (aligned_sample_same_index (Logit._X m) (Logit._y m)); [congruence|].
  exact Hal.
Qed.

(** X8.  On a model constructed with a list of regressors that is not of
    length one, [predict] raises its shape error exactly when the input
    shows another number of regressors than that list has. *)
Theorem predict_shape_error_exactly_on_mismatch
        (df : DataFrame A) (y_list regressors_list : list string)
        (a0 : pyobj A) (m : Logit.t A)
        (X_predict : array_like A) (within_sample : bool) :
  Logit.__init__ Logit_fit np_exp df y_list regressors_list a0 = Ok m ->
  List.length regressors_list <> 1 ->
  (Logit.predict np_exp m X_predict within_sample
   = Raise (ValueError Logit.shape_message)
   <-> Logit.regressors_detected X_predict <> List.length regressors_list).
Proof.
  intros E Hn. pose proof (init_sample _ _ _ _ _ E) as Hal.
  apply init_data in E. destruct E as (_ & _ & HXn & _).
  destruct (HXn Hn) as (d & HX & Hd). rewrite HX in Hal.
  apply aligned_sample_of_frame in Hal. destruct Hal as (d' & Hm & Hcols).
  apply df_getitem_list_inv in Hd. destruct Hd as [_ Hnames].
  rewrite <- Hnames, <- Hcols.
  apply predict_shape_error_iff. exact Hm.
Qed.

End Inputs.

Lemma fitted_sample_labels_witness :
  x_index (Logit.X_model (Example.cars_model Example.exp_stub))
  = s_index (Logit.y_model (Example.cars_model Example.exp_stub)).
Proof.
  apply (fitted_sample_shares_row_labels
           Example.stub_fit Example.exp_stub Example.cars ["vs"] ["wt"; "disp"]
           (PyFloat 0x1.999999999999ap-5%float)).
  vm_compute. reflexivity.
Defined.

Lemma predict_shape_error_witness :
  Logit.predict Example.exp_stub (Example.cars_model Example.exp_stub)
    (NdArray (Arr1 [3%float])) true
  = Raise (ValueError Logit.shape_message)
  <-> Logit.regressors_detected (NdArray (Arr1 [3%float]))
      <> List.length ["wt"; "disp"].
Proof.
  apply (predict_shape_error_exactly_on_mismatch
           Example.stub_fit Example.exp_stub Example.cars ["vs"] ["wt"; "disp"]
           (PyFloat 0x1.999999999999ap-5%float)).
  - vm_compute. reflexivity.
  - cbn. lia.
Defined.

(** ** Selection by position, on labelled rows *)

Section Selection.

Lemma iloc_pos_raises {T : Type} (l : list T) (p : Z) (e : exn) :
  fits_int64 p = true ->
  iloc_pos l p = Raise e ->
  e = IndexError "positional indexers are out-of-bounds".
Proof.
  intros Hf. unfold iloc_pos. rewrite Hf. destruct (_ && _)%bool; [|congruence].
  destruct (nth_error l _); congruence.
Qed.

Lemma iloc_pos_out_of_bounds {T : Type} (l : list T) (p : Z) :
  fits_int64 p = true ->
  (p < - Z.of_nat (List.length l) \/ Z.of_nat (List.length l) <= p)%Z ->
  iloc_pos l p = Raise (IndexError "positional indexers are out-of-bounds").
Proof.
  intros Hf Hp. unfold iloc_pos. rewrite Hf.
  destruct (Z.ltb_spec p 0) as [Hneg|Hpos].
  - destruct (Z.leb_spec 0 (Z.of_nat (List.length l) + p)) as [N|_]; [lia|].
    reflexivity.
  - destruct (Z.ltb_spec p (Z.of_nat (List.length l))) as [N|_]; [lia|].
    rewrite andb_false_r. reflexivity.
Qed.

Lemma fits_int64_no_overflow {T : Type} (l : list T) (ps : list Z) :
  (forall q, In q ps -> fits_int64 q = true) ->
  existsb (overflows l) ps = false.
Proof.
  intros Hf. destruct (existsb (overflows l) ps) eqn:E; [|reflexivity].
  apply existsb_exists in E. destruct E as (q & Hq & Ho).
  unfold overflows in Ho. destruct (iloc_pos l q) as [v|e] eqn:Hp; [discriminate|].
  apply iloc_pos_raises in Hp; [|apply Hf; exact Hq]. subst e. discriminate.
Qed.

Lemma iloc_list_raises_on {T : Type} (l : list T) (ps : list Z) (p : Z) :
  (forall q, In q ps -> fits_int64 q = true) ->
  In p ps ->
  (p < - Z.of_nat (List.length l) \/ Z.of_nat (List.length l) <= p)%Z ->
  iloc_list l ps = Raise (IndexError "positional indexers are out-of-bounds").
Proof.
  intros Hf Hin Hp. unfold iloc_list. rewrite (fits_int64_no_overflow l ps Hf).
  induction ps as [|q ps IH]; [contradiction|]. cbn [mapM].
  destruct (iloc_pos l q) as [v|e] eqn:Hq.
  - cbn [bind]. destruct Hin as [-> | Hin].
    + rewrite (iloc_pos_out_of_bounds l p) in Hq;
        [discriminate | apply Hf; left; reflexivity | exact Hp].
    + rewrite IH; [reflexivity | intros z Hz; apply Hf; right; exact Hz | exact Hin].
  - apply iloc_pos_raises in Hq; [|apply Hf; left; reflexivity].
    subst e. reflexivity.
Qed.

Lemma nth_error_range_index (n i : nat) :
  i < n -> nth_error (range_index n) i = Some (Z.of_nat i).
Proof.
  intros Hi. unfold range_index. rewrite nth_error_map.
  rewrite nth_error_seq. destruct (Nat.ltb_spec i n); [reflexivity | lia].
Qed.

Lemma iloc_pos_own_label {T : Type} (l : list (Z * T)) (r : Z * T) :
  map fst l = range_index (List.length l) ->
  In r l ->
  iloc_pos l (fst r) = Ok r.
Proof.
  intros Hl Hin. apply In_nth_error in Hin. destruct Hin as (i & Hi).
  assert (Hlt : i < List.length l) by (apply nth_error_Some; congruence).
  assert (Hf : fst r = Z.of_nat i).
  { pose proof (nth_error_range_index (List.length l) i Hlt) as Hr.
    rewrite <- Hl, nth_error_map, Hi in Hr. cbn in Hr. congruence. }
  rewrite Hf. unfold iloc_pos.
  destruct (Z.ltb_spec (Z.of_nat i) 0); [lia|].
  destruct (Z.leb_spec 0 (Z.of_nat i)); [|lia].
  destruct (Z.ltb_spec (Z.of_nat i) (Z.of_nat (List.length l))); [|lia].
  cbn [andb]. rewrite Nat2Z.id, Hi. reflexivity.
Qed.

Lemma iloc_list_of_kept_labels {T : Type} (good : Z * T -> bool)
      (l : list (Z * T)) (ps : list Z) :
  map fst l = range_index (List.length l) ->
  (forall p, In p ps -> In p (map fst (filter good l))) ->
  exists rs,
    iloc_list l ps = Ok rs /\
    map fst rs = ps /\
    Forall (fun r => good r = true /\ In r l) rs.
Proof.
  intros Hl Hps.
  assert (E : exists rs,
             mapM (iloc_pos l) ps = Ok rs /\
             map fst rs = ps /\
             Forall (fun r => good r = true /\ In r l) rs).
  { induction ps as [|p ps IH].
    - exists []. repeat split; constructor.
    - destruct IH as (rs & Hrs & Hfst & Hall).
      { intros q Hq. apply Hps. right. exact Hq. }
      assert (Hp : In p (map fst (filter good l))) by (apply Hps; left; reflexivity).
      apply in_map_iff in Hp. destruct Hp as (r & Hr & Hin).
      apply filter_In in Hin. destruct Hin as [Hin Hgood].
      exists (r :: rs). cbn [mapM map].
      rewrite <- Hr, (iloc_pos_own_label l r Hl Hin). cbn [bind].
      rewrite Hrs. cbn [bind]. repeat split.
      + rewrite Hfst. reflexivity.
      + constructor; auto. }
  destruct E as (rs & Hrs & Hrest). exists rs.
  split; [apply iloc_list_of_mapM; exact Hrs | exact Hrest].
Qed.

Lemma set_intersection_list_In (a b : list Z) (p : Z) :
  In p (Logit.set_intersection_list a b) <-> In p a /\ In p b.
Proof.
  unfold Logit.set_intersection_list. rewrite nodup_In, filter_In.
  split; intros [Ha Hb]; split; auto.
  - apply existsb_exists in Hb. destruct Hb as (q & Hq & E).
    apply Z.eqb_eq in E. subst. exact Hq.
  - apply existsb_exists. exists p. split; [exact Hb | apply Z.eqb_refl].
Qed.

End Selection.

(** ** The aligned sample under the default labels, and out of bounds *)

Section DefaultLabels.

Context {A : Type} `{Scalar A}.

Lemma range_index_length (n : nat) : List.length (range_index n) = n.
Proof. unfold range_index. rewrite length_map, length_seq. reflexivity. Qed.

Lemma labels_range {T : Type} (l : list (Z * T)) (n : nat) :
  map fst l = range_index n -> map fst l = range_index (List.length l).
Proof.
  intros E. pose proof (f_equal (@List.length Z) E) as L.
  rewrite length_map, range_index_length in L. rewrite L. exact E.
Qed.

Lemma x_dropna_index (X0 : XData A) (q : Z) :
  In q (x_index (x_dropna X0)) -> In q (x_index X0).
Proof.
  destruct X0 as [sx|d]; cbn [x_dropna x_index];
    unfold s_index, df_index; cbn [s_data df_rows]; intros Hin;
    apply in_map_iff in Hin; destruct Hin as (r & Hr & Hin);
    apply filter_In in Hin; apply in_map_iff; exists r; tauto.
Qed.

(** X3.  On a table whose row labels are 64-bit integers: when a row that
    is complete on both sides carries a label that is not a valid position
    of the table (at or beyond its number of rows, or below minus that
    number), [_regress] selects nothing: the selection raises pandas'
    out-of-bounds index error. *)
Theorem aligned_sample_label_out_of_bounds
        (X0 : XData A) (y0 : Series A Z) (p : Z) :
  (forall q, In q (x_index X0) -> fits_int64 q = true) ->
  In p (x_index (x_dropna X0)) ->
  In p (s_index (series_dropna y0)) ->
  (p < - Z.of_nat (List.length (x_index X0))
   \/ Z.of_nat (List.length (x_index X0)) <= p)%Z ->
  Logit.aligned_sample X0 y0
  = Raise (IndexError "positional indexers are out-of-bounds").
Proof.
  intros Hfit HpX Hpy Hp. unfold Logit.aligned_sample, Logit.select_sample.
  set (indices := Logit.set_intersection_list _ _).
  assert (Hin : In p indices) by (apply set_intersection_list_In; auto).
  assert (Hf : forall q, In q indices -> fits_int64 q = true).
  { intros q Hq. apply set_intersection_list_In in Hq.
    apply Hfit, x_dropna_index, Hq. }
  destruct X0 as [sx|d]; cbn [x_iloc x_index] in *.
  - unfold series_iloc. unfold s_index in Hp. rewrite length_map in Hp.
    rewrite (iloc_list_raises_on (s_data sx) indices p Hf Hin Hp). reflexivity.
  - unfold df_iloc. unfold df_index in Hp. rewrite length_map in Hp.
    rewrite (iloc_list_raises_on (df_rows d) indices p Hf Hin Hp). reflexivity.
Qed.

(** X2.  Under the default row labels 0, 1, ..., n-1 on both sides, the
    selection of [_regress] succeeds, and the aligned sample is made of
    rows of the table, none with a missing value, under the same labels on
    both sides: exactly the labels of the rows complete in the regressors
    and in the outcome. *)
Theorem aligned_sample_default_labels
        (X0 : XData A) (y0 : Series A Z) (n : nat) :
  x_index X0 = range_index n ->
  s_index y0 = range_index n ->
  exists Xm ym,
    Logit.aligned_sample X0 y0 = Ok (Xm, ym) /\
    Forall (fun r => complete (snd r) = true /\ In r (x_rows X0)) (x_rows Xm) /\
    Forall (fun q => s_isnan (snd q) = false /\ In q (s_data y0)) (s_data ym) /\
    x_index Xm = s_index ym /\
    (forall label,
        In label (s_index ym)
        <-> In label (x_index (x_dropna X0)) /\ In label (s_index (series_dropna y0))).
Proof.
  intros HX Hy. unfold Logit.aligned_sample, Logit.select_sample.
  set (indices := Logit.set_intersection_list _ _).
  assert (Hyr : map fst (s_data y0) = range_index (List.length (s_data y0)))
    by (apply (labels_range _ n); exact Hy).
  destruct (iloc_list_of_kept_labels
              (fun q : Z * A => negb (s_isnan (snd q))) (s_data y0) indices Hyr)
    as (ry & Hry & Hfy & Hally).
  { intros q Hq. apply set_intersection_list_In in Hq. apply Hq. }
  assert (Hlab : forall label,
             In label (map fst ry)
             <-> In label (x_index (x_dropna X0))
                 /\ In label (s_index (series_dropna y0))).
  { intros label. rewrite Hfy. apply set_intersection_list_In. }
  assert (Hyok : Forall (fun q => s_isnan (snd q) = false /\ In q (s_data y0)) ry).
  { eapply Forall_impl; [|exact Hally]. cbn. intros q [Hg Hin]. split; auto.
    apply negb_true_iff in Hg. exact Hg. }
  destruct X0 as [sx|d]; cbn [x_iloc x_index x_dropna] in *.
  - assert (Hxr : map fst (s_data sx) = range_index (List.length (s_data sx)))
      by (apply (labels_range _ n); exact HX).
    destruct (iloc_list_of_kept_labels
                (fun q : Z * A => negb (s_isnan (snd q))) (s_data sx) indices Hxr)
      as (rx & Hrx & Hfx & Hallx).
    { intros q Hq. apply set_intersection_list_In in Hq. apply Hq. }
    unfold series_iloc. rewrite Hrx, Hry. cbn [bind].
    eexists. eexists. split; [reflexivity|].
    cbn [x_rows x_index s_data]. unfold s_index. cbn [s_data].
    repeat split; auto; try (apply Hlab; assumption); try congruence.
    apply Forall_map. eapply Forall_impl; [|exact Hallx]. cbn.
    intros q [Hg Hin]. split.
    + unfold complete. cbn [forallb]. rewrite Hg. reflexivity.
    + apply in_map_iff. exists q. split; [reflexivity | exact Hin].
  - assert (Hxr : map fst (df_rows d) = range_index (List.length (df_rows d)))
      by (apply (labels_range _ n); exact HX).
    destruct (iloc_list_of_kept_labels
                (fun r : Z * list A => forallb (fun v => negb (s_isnan v)) (snd r))
                (df_rows d) indices Hxr)
      as (rx & Hrx & Hfx & Hallx).
    { intros q Hq. apply set_intersection_list_In in Hq. apply Hq. }
    unfold series_iloc, df_iloc. rewrite Hrx, Hry. cbn [bind].
    eexists. eexists. split; [reflexivity|].
    cbn [x_rows x_index s_data df_rows]. unfold s_index, df_index. cbn [s_data df_rows].
    repeat split; auto; try (apply Hlab; assumption); try congruence.
Qed.

End DefaultLabels.

Lemma aligned_sample_out_of_bounds_witness :
  Logit.aligned_sample
    (Cases.regressors_of Example.cars_even ["wt"; "disp"])
    (Cases.outcome_of Example.cars_even "vs")
  = Raise (IndexError "positional indexers are out-of-bounds").
Proof.
  apply (aligned_sample_label_out_of_bounds _ _ 4%Z).
  - intros q Hq. vm_compute in Hq.
    destruct Hq as [<- | [<- | [<- | []]]]; reflexivity.
  - vm_compute. auto.
  - vm_compute. auto.
  - right. vm_compute. discriminate.
Defined.

Lemma aligned_sample_default_labels_witness :
  exists Xm ym,
    Logit.aligned_sample
      (Cases.regressors_of Cases.cars_missing ["wt"; "disp"])
      (Cases.outcome_of Cases.cars_missing "vs")
    = Ok (Xm, ym) /\
    Forall (fun r => complete (snd r) = true
                     /\ In r (x_rows (Cases.regressors_of Cases.cars_missing
                                                          ["wt"; "disp"])))
           (x_rows Xm) /\
    Forall (fun q => s_isnan (snd q) = false
                     /\ In q (s_data (Cases.outcome_of Cases.cars_missing "vs")))
           (s_data ym) /\
    x_index Xm = s_index ym /\
    (forall label,
        In label (s_index ym)
        <-> In label (x_index (x_dropna (Cases.regressors_of Cases.cars_missing
                                                             ["wt"; "disp"])))
            /\ In label (s_index (series_dropna
                                    (Cases.outcome_of Cases.cars_missing "vs")))).
Proof.
  apply (aligned_sample_default_labels _ _ 4); vm_compute; reflexivity.
Defined.

(** On the four cars the sample is cars 0 and 2. *)
Lemma aligned_sample_cars_missing :
  Logit.aligned_sample
    (Cases.regressors_of Cases.cars_missing ["wt"; "disp"])
    (Cases.outcome_of Cases.cars_missing "vs")
  = Ok (XFrame (mkDataFrame ["wt"; "disp"]
                  [(0%Z, [2.625%float; 160%float]); (2%Z, [2.25%float; 108%float])]),
        mkSeries "vs" [(0%Z, 0%float); (2%Z, 1%float)]).
Proof.
  vm_compute. reflexivity.
Qed.

(** ** What the significance filter returns *)

Section FilterResult.

Context {A : Type} `{Scalar A}.
Variable Logit_fit : Series A Z -> DataFrame A -> result (Results A).
Variable np_exp : A -> A.

(** X13.  On a constructed model and for a float [alpha] that passes the
    range test, [significant_regressors] returns the names of the
    parameters other than the constant whose p-value is at most [alpha],
    in the order of the parameters, and [None], never an empty list, when
    there is none. *)
Theorem significant_regressors_returns_the_significant
        (df : DataFrame A) (y_list regressors_list : list string)
        (a0 : pyobj A) (m : Logit.t A) (a : A) (objs : list (Series A string)) :
  Logit.__init__ Logit_fit np_exp df y_list regressors_list a0 = Ok m ->
  (s_le a s_zero || s_lt s_lit_0_1 a)%bool = false ->
  exists r,
    fst (Logit.significant_regressors (PyFloat a) (Logit.mkState m objs)) = Ok r /\
    Logit.names_of r = Logit.significant_names (Logit.results m) a /\
    r <> Some [] /\
    (forall name,
        In name (Logit.names_of r)
        <-> name <> "const" /\
            exists p, In (name, p) (s_data (results_pvalues (Logit.results m)))
                      /\ s_le p a = true).
Proof.
  intros E Hv. pose proof (init_has_const _ _ _ _ _ _ _ E) as Hc.
  destruct (significant_regressors_run a (Logit.mkState m objs) Hv Hc)
    as (r & Hrun & Hr).
  cbn [Logit.st_self] in *. exists r. rewrite Hrun. cbn [fst].
  assert (Hn : Logit.names_of r = Logit.significant_names (Logit._results m) a).
  { rewrite Hr. destruct (Logit.significant_names _ a); reflexivity. }
  split; [reflexivity|]. split; [exact Hn|]. split.
  - rewrite Hr. destruct (Logit.significant_names _ a); discriminate.
  - intros name. rewrite Hn. unfold Logit.significant_names, Logit.results.
    rewrite in_map_iff. split.
    + intros ([n p] & Hfst & Hin). cbn [fst] in Hfst. subst n.
      apply filter_In in Hin. destruct Hin as [Hin Hle].
      apply filter_In in Hin. destruct Hin as [Hin Hnc].
      unfold Logit.not_const in Hnc. cbn [fst snd] in *. split; [|eauto].
      intros ->. rewrite String.eqb_refl in Hnc. discriminate.
    + intros (Hne & p & Hin & Hle). exists (name, p). split; [reflexivity|].
      apply filter_In. split; [|exact Hle].
      apply filter_In. split; [exact Hin|].
      unfold Logit.not_const. cbn [fst].
      destruct (String.eqb_spec "const" name); [congruence | reflexivity].
Qed.

End FilterResult.

Lemma float_le_nan (p : float) : PrimFloat.leb p nan = false.
Proof.
  rewrite leb_spec. change (Prim2SF nan) with S754_nan.
  unfold SFleb, SFcompare. destruct (Prim2SF p); reflexivity.
Qed.

Lemma filter_le_nan {T : Type} (l : list (T * float)) :
  filter (fun c : T * float => PrimFloat.leb (snd c) nan) l = [].
Proof.
  induction l as [|c l IH]; [reflexivity|].
  cbn [filter]. rewrite float_le_nan. exact IH.
Qed.

(** X14.  The range test lets the float NaN through: on a constructed
    model [significant_regressors(float('nan'))] raises nothing and
    returns [None]. *)
Theorem significant_regressors_nan_alpha
        (Logit_fit : Series float Z -> DataFrame float -> result (Results float))
        (np_exp : float -> float)
        (df : DataFrame float) (y_list regressors_list : list string)
        (a0 : pyobj float) (m : Logit.t float)
        (objs : list (Series float string)) :
  Logit.__init__ Logit_fit np_exp df y_list regressors_list a0 = Ok m ->
  fst (Logit.significant_regressors (PyFloat nan) (Logit.mkState m objs)) = Ok None.
Proof.
  intros E. pose proof (init_has_const _ _ _ _ _ _ _ E) as Hc.
  assert (Hv : (s_le nan s_zero || s_lt s_lit_0_1 nan)%bool = false)
    by (vm_compute; reflexivity).
  destruct (significant_regressors_run nan (Logit.mkState m objs) Hv Hc)
    as (r & Hrun & Hr).
  rewrite Hrun. cbn [fst Logit.st_self] in *. rewrite Hr.
  unfold Logit.significant_names.
  change (fun c : string * float => s_le (snd c) nan)
    with (fun c : string * float => PrimFloat.leb (snd c) nan).
  rewrite filter_le_nan. reflexivity.
Qed.

Lemma significant_regressors_result_witness :
  exists r,
    fst (Logit.significant_regressors (PyFloat 0.09375%float)
           (Logit.mkState (Example.trial_model Example.exp_stub) [])) = Ok r /\
    Logit.names_of r
    = Logit.significant_names
        (Logit.results (Example.trial_model Example.exp_stub)) 0.09375%float /\
    r <> Some [] /\
    (forall name,
        In name (Logit.names_of r)
        <-> name <> "const" /\
            exists p,
              In (name, p)
                 (s_data (results_pvalues
                            (Logit.results (Example.trial_model Example.exp_stub))))
              /\ s_le p 0.09375%float = true).
Proof.
  apply (significant_regressors_returns_the_significant
           Example.stub_fit Example.exp_stub Example.trial ["y"] ["a"; "b"; "c"]
           (PyFloat 0x1.999999999999ap-5%float));
    vm_compute; reflexivity.
Defined.

Lemma significant_regressors_nan_witness :
  fst (Logit.significant_regressors (PyFloat nan)
         (Logit.mkState (Example.trial_model Example.exp_stub) [])) = Ok None.
Proof.
  apply (significant_regressors_nan_alpha
           Example.stub_fit Example.exp_stub Example.trial ["y"] ["a"; "b"; "c"]
           (PyFloat 0x1.999999999999ap-5%float)).
  vm_compute. reflexivity.
Defined.

(** ** What [predict] returns *)

Section Predictions.

Context {A : Type} `{Scalar A}.
Variable np_exp : A -> A.

Lemma zip_with_length {T U V : Type} (f : T -> U -> V) (l : list T) (l' : list U) :
  List.length l = List.length l' ->
  List.length (Logit.zip_with f l l') = List.length l.
Proof.
  intros E. unfold Logit.zip_with. rewrite length_map, length_combine. lia.
Qed.

Lemma nth_error_zip_with {T U V : Type} (f : T -> U -> V)
      (l : list T) (l' : list U) (i : nat) (a : T) (b : U) :
  nth_error l i = Some a -> nth_error l' i = Some b ->
  nth_error (Logit.zip_with f l l') i = Some (f a b).
Proof.
  revert l' i. induction l as [|x l IH]; intros [|y l'] [|i]; cbn;
    try discriminate.
  - intros [= ->] [= ->]. reflexivity.
  - apply IH.
Qed.

Lemma sm_add_constant_numpy_rows (n : nat) (rows : list (list A)) (exog : ndarray A) :
  sm_add_constant_numpy (Arr2 n rows) = Ok exog ->
  exists n' rows', exog = Arr2 n' rows' /\ List.length rows' = List.length rows.
Proof.
  unfold sm_add_constant_numpy. destruct rows as [|r rows]; [discriminate|].
  destruct (existsb _ _); intros [= <-]; eexists; eexists; split;
    try reflexivity.
  cbn [map List.length]. rewrite length_map. reflexivity.
Qed.

Lemma results_predict_rows (res : Results A) (n : nat) (rows : list (list A))
      (preds : list A) :
  Logit.results_predict np_exp res (Arr2 n rows) = Ok preds ->
  List.length preds = List.length rows.
Proof.
  unfold Logit.results_predict. destruct (_ =? _)%nat; [|discriminate].
  intros [= <-]. apply length_map.
Qed.

Lemma np_where_nan_vec (mask : list bool) (preds0 preds : list A) :
  Logit.np_where_nan (Logit.MaskVec mask) preds0 = Ok preds ->
  List.length mask = List.length preds0 /\
  preds = Logit.zip_with (fun (b : bool) p => if b then p else s_nan) mask preds0.
Proof.
  unfold Logit.np_where_nan.
  destruct (Nat.eqb_spec (List.length mask) (List.length preds0)); [|discriminate].
  intros [= <-]. auto.
Qed.

(** X11.  When [predict] returns on a two-dimensional input, with or
    without the range check, it returns one prediction per example. *)
Theorem predict_batch_one_prediction_per_example
        (m : Logit.t A) (X_predict : array_like A) (n : nat)
        (rows : list (list A)) (within_sample : bool) (preds : list A) :
  to_numpy X_predict = Arr2 n rows ->
  Logit.predict np_exp m X_predict within_sample = Ok preds ->
  List.length preds = List.length rows.
Proof.
  unfold Logit.predict. intros HX E. rewrite HX in E.
  bind_inv E k Hk. destruct (negb _); [discriminate|].
  destruct within_sample; bind_inv E me Hme; destruct me as [mk exog];
    bind_inv Hme exog' Hexog; injection Hme as <- <-;
    apply sm_add_constant_numpy_rows in Hexog;
    destruct Hexog as (n' & rows' & -> & Hrows);
    bind_inv E preds0 Hp0; apply results_predict_rows in Hp0.
  - apply np_where_nan_vec in E. destruct E as [Hlen ->].
    rewrite zip_with_length by exact Hlen.
    rewrite batch_mask_uses_min_only. apply length_map.
  - injection E as <-. congruence.
Qed.

Lemma forallb_zip_false (f : A -> A -> bool) (a b : list A) (j : nat) :
  j < List.length a -> j < List.length b ->
  f (nth j a s_nan) (nth j b s_nan) = false ->
  forallb (fun x : bool => x) (Logit.zip_with f a b) = false.
Proof.
  unfold Logit.zip_with.
  revert b j. induction a as [|x a IH]; intros [|y b] [|j]; cbn;
    try lia; intros Ha Hb Hf.
  - rewrite Hf. reflexivity.
  - rewrite (IH b j) by (auto; lia). apply andb_false_r.
Qed.

Lemma x_min_length (d : DataFrame A) :
  List.length (x_min (XFrame d)) = List.length (df_columns d).
Proof.
  cbn [x_min]. unfold df_cols. rewrite !length_map, length_seq. reflexivity.
Qed.

Lemma x_max_length (d : DataFrame A) :
  List.length (x_max (XFrame d)) = List.length (df_columns d).
Proof.
  cbn [x_max]. unfold df_cols. rewrite !length_map, length_seq. reflexivity.
Qed.

(** X10.  In a batch predicted with [within_sample=True], an example one
    of whose values is not at least the training minimum of its regressor
    (a smaller value, or a missing one) is predicted NaN. *)
Theorem predict_batch_masks_below_min
        (m : Logit.t A) (d : DataFrame A) (rows : list (list A))
        (preds : list A) (i j : nat) (row : list A) :
  Logit.X_model m = XFrame d ->
  Logit.predict np_exp m
    (NdArray (Arr2 (List.length (df_columns d)) rows)) true = Ok preds ->
  nth_error rows i = Some row ->
  j < List.length row ->
  j < List.length (df_columns d) ->
  s_le (nth j (x_min (XFrame d)) s_nan) (nth j row s_nan) = false ->
  nth_error preds i = Some s_nan.
Proof.
  intros HX E Hrow Hj Hk Hle. rewrite (predict_batch_mask np_exp m d rows HX) in E.
  bind_inv E exog Hexog. bind_inv E preds0 Hp0.
  apply np_where_nan_vec in E. destruct E as [Hlen ->].
  rewrite length_map in Hlen.
  assert (Hi : i < List.length preds0).
  { rewrite <- Hlen. apply nth_error_Some. congruence. }
  destruct (nth_error preds0 i) as [p|] eqn:Hp;
    [|apply nth_error_None in Hp; lia].
  rewrite (nth_error_zip_with _ _ _ i false p).
  - reflexivity.
  - rewrite nth_error_map, Hrow. cbn [option_map]. f_equal.
    apply (forallb_zip_false s_le _ row j); auto.
    rewrite x_min_length. exact Hk.
  - exact Hp.
Qed.

End Predictions.

Section SingleObservation.

Context {A : Type} `{Scalar A}.
Variable np_exp : A -> A.

Lemma range_mask_true (f g : A -> A -> bool) (a b c : list A) :
  List.length a = List.length b -> List.length c = List.length b ->
  (forall j, j < List.length b ->
             (f (nth j a s_nan) (nth j b s_nan)
              && g (nth j b s_nan) (nth j c s_nan))%bool = true) ->
  forallb (fun x : bool => x)
          (Logit.zip_with andb (Logit.zip_with f a b) (Logit.zip_with g b c)) = true.
Proof.
  unfold Logit.zip_with.
  revert a c. induction b as [|y b IH]; intros [|x a] [|z c]; cbn;
    try discriminate; try reflexivity.
  intros Ha Hc Hall. rewrite (Hall 0) by lia. cbn [andb].
  apply IH; try lia. intros j Hj. apply (Hall (S j)). lia.
Qed.

Lemma range_mask_false (f g : A -> A -> bool) (a b c : list A) (j : nat) :
  List.length a = List.length b -> List.length c = List.length b ->
  j < List.length b ->
  (f (nth j a s_nan) (nth j b s_nan)
   && g (nth j b s_nan) (nth j c s_nan))%bool = false ->
  forallb (fun x : bool => x)
          (Logit.zip_with andb (Logit.zip_with f a b) (Logit.zip_with g b c)) = false.
Proof.
  unfold Logit.zip_with.
  revert a c j. induction b as [|y b IH]; intros [|x a] [|z c] [|j]; cbn;
    try discriminate; try lia; intros Ha Hc Hj Hf.
  - rewrite Hf. reflexivity.
  - rewrite (IH a c j) by (auto; lia). apply andb_false_r.
Qed.

Lemma results_predict_single (res : Results A) (v : list A) :
  List.length (res_table res) = S (List.length v) ->
  Logit.results_predict np_exp res (Arr1 (np_insert_0_1 v))
  = Ok [Logit.logit_cdf np_exp
          (Logit.np_dot (s_one :: v) (s_values (results_params res)))].
Proof.
  intros Hp. unfold Logit.results_predict, np_insert_0_1.
  assert (Hlen : List.length (s_values (results_params res)) = S (List.length v)).
  { unfold s_values, results_params, wrap_columns. cbn [s_data].
    rewrite !length_map. exact Hp. }
  rewrite Hlen. destruct v as [|x v]; cbn [List.length Nat.eqb map].
  - reflexivity.
  - rewrite Nat.eqb_refl. reflexivity.
Qed.

(** X9.  A single observation predicted with [within_sample=True] on a
    model with a table of regressors (and one parameter per regressor plus
    the constant): when every value lies in the closed training range of
    its regressor the result is the solver's prediction for the
    observation with the constant 1 in front; as soon as one value lies
    outside its range (or is missing) the result is NaN. *)
Theorem predict_single_within_sample
        (m : Logit.t A) (d : DataFrame A) (v : list A) :
  Logit.X_model m = XFrame d ->
  List.length v = List.length (df_columns d) ->
  List.length (res_table (Logit.results m)) = S (List.length (df_columns d)) ->
  ((forall j, j < List.length v -> in_training_range (XFrame d) v j = true) ->
   Logit.predict np_exp m (NdArray (Arr1 v)) true
   = Ok [Logit.logit_cdf np_exp
           (Logit.np_dot (s_one :: v)
                         (s_values (results_params (Logit.results m))))])
  /\
  (forall j, j < List.length v ->
             in_training_range (XFrame d) v j = false ->
             Logit.predict np_exp m (NdArray (Arr1 v)) true = Ok [s_nan]).
Proof.
  unfold Logit.X_model, Logit.results. intros HX Hv Hp.
  assert (Hmin : List.length (x_min (XFrame d)) = List.length v)
    by (rewrite x_min_length; congruence).
  assert (Hmax : List.length (x_max (XFrame d)) = List.length v)
    by (rewrite x_max_length; congruence).
  assert (Hres : Logit.results_predict np_exp (Logit._results m)
                   (Arr1 (np_insert_0_1 v))
                 = Ok [Logit.logit_cdf np_exp
                         (Logit.np_dot (s_one :: v)
                            (s_values (results_params (Logit._results m))))])
    by (apply results_predict_single; congruence).
  unfold Logit.predict. rewrite HX.
  cbn [x_shape_1 bind to_numpy]. rewrite (proj2 (Nat.eqb_eq _ _) Hv).
  cbn [negb bind]. rewrite Hres. cbn [bind Logit.np_where_nan map].
  split.
  - intros Hall.
    rewrite (range_mask_true s_le s_le _ v _ Hmin Hmax Hall). reflexivity.
  - intros j Hj Hout.
    rewrite (range_mask_false s_le s_le _ v _ j Hmin Hmax Hj Hout). reflexivity.
Qed.

End SingleObservation.

Lemma predict_single_witness :
  Logit.predict Example.exp_stub (Example.cars_model Example.exp_stub)
    (NdArray (Arr1 [2.5%float; 180%float])) true
  = Ok [Logit.logit_cdf Example.exp_stub
          (Logit.np_dot [1%float; 2.5%float; 180%float]
             (s_values (results_params
                          (Logit.results (Example.cars_model Example.exp_stub)))))]
  /\
  Logit.predict Example.exp_stub (Example.cars_model Example.exp_stub)
    (NdArray (Arr1 [100%float; 200%float])) true
  = Ok [nan].
Proof.
  split.
  - refine (proj1 (predict_single_within_sample
                     Example.exp_stub (Example.cars_model Example.exp_stub)
                     (mkDataFrame ["wt"; "disp"] _) [2.5%float; 180%float]
                     _ _ _) _);
      try (vm_compute; reflexivity).
    intros [|[|j]] Hj; try (vm_compute; reflexivity). cbn in Hj. lia.
  - refine (proj2 (predict_single_within_sample
                     Example.exp_stub (Example.cars_model Example.exp_stub)
                     (mkDataFrame ["wt"; "disp"] _) [100%float; 200%float]
                     _ _ _) 0 _ _);
      try (vm_compute; reflexivity).
    cbn. lia.
Defined.

Lemma predict_batch_length_witness :
  List.length [Logit.logit_cdf Example.exp_stub 28807.5625%float; nan]
  = List.length [[2.5%float; 180%float]; [1%float; 200%float]].
Proof.
  apply (predict_batch_one_prediction_per_example
           Example.exp_stub (Example.cars_model Example.exp_stub)
           (NdArray (Arr2 2 [[2.5%float; 180%float]; [1%float; 200%float]]))
           2 _ true).
  - reflexivity.
  - vm_compute. reflexivity.
Defined.

Lemma predict_batch_masks_witness :
  nth_error [Logit.logit_cdf Example.exp_stub 28807.5625%float; nan] 1
  = Some nan.
Proof.
  change (nth_error [Logit.logit_cdf Example.exp_stub 28807.5625%float; nan] 1
          = Some (@s_nan float float_scalar)).
  apply (predict_batch_masks_below_min
           Example.exp_stub (Example.cars_model Example.exp_stub)
           (mkDataFrame ["wt"; "disp"]
              [(0%Z, [2.625%float; 160%float]); (1%Z, [2.875%float; 160%float]);
               (2%Z, [2.25%float; 108%float]); (3%Z, [3.25%float; 258%float]);
               (4%Z, [3.5%float; 360%float])])
           [[2.5%float; 180%float]; [1%float; 200%float]]
           [Logit.logit_cdf Example.exp_stub 28807.5625%float; nan]
           1 0 [1%float; 200%float]);
    try (vm_compute; reflexivity); cbn; lia.
Defined.

(** ** What construction stores *)

Section Stored.

Context {A : Type} `{Scalar A}.
Variable Logit_fit : Series A Z -> DataFrame A -> result (Results A).
Variable np_exp : A -> A.

Lemma init_stats (df : DataFrame A) (y_list regressors_list : list string)
      (a0 : pyobj A) (m : Logit.t A) :
  Logit.__init__ Logit_fit np_exp df y_list regressors_list a0 = Ok m ->
  Logit._model_selection_stats m
  = [("Log-likelihood", res_llf (Logit._results m));
     ("Pseudo R-squared", res_prsquared (Logit._results m));
     ("AIC", res_aic (Logit._results m));
     ("BIC", res_bic (Logit._results m))] /\
  Logit._log_likelihood m = res_llf (Logit._results m).
Proof.
  unfold Logit.__init__. intros E.
  bind_inv E y_name Hy. bind_inv E y0 Hy0. bind_inv E X0 HX0.
  bind_inv E r Hr. bind_inv E s Hs. injection E as <-.
  cbn [Logit._model_selection_stats Logit._log_likelihood Logit._results].
  unfold Logit._regress in Hr.
  bind_inv Hr sm Hsm. destruct sm as [Xm ym].
  bind_inv Hr res Hres. bind_inv Hr p Hp. injection Hr as <-.
  cbn [Logit.ro_model_selection_stats Logit.ro_log_likelihood Logit.ro_results].
  auto.
Qed.

(** X4.  The model-selection statistics of a constructed model are the
    four entries Log-likelihood, Pseudo R-squared, AIC and BIC, in this
    order, each read from the fit on the raw aligned sample; the
    [log_likelihood] attribute is the Log-likelihood entry. *)
Theorem model_selection_stats_of_raw_fit
        (df : DataFrame A) (y_list regressors_list : list string)
        (a0 : pyobj A) (m : Logit.t A) :
  Logit.__init__ Logit_fit np_exp df y_list regressors_list a0 = Ok m ->
  exists raw,
    Logit_fit (Logit.y_model m) (sm_add_constant_pandas (Logit.X_model m)) = Ok raw /\
    Logit.model_selection_stats m
    = [("Log-likelihood", res_llf raw);
       ("Pseudo R-squared", res_prsquared raw);
       ("AIC", res_aic raw);
       ("BIC", res_bic raw)] /\
    Logit.log_likelihood m = res_llf raw.
Proof.
  intros E. pose proof (init_stats _ _ _ _ _ E) as [Hs Hl].
  apply init_inv in E.
  destruct E as (r & s & Hr & _ & _ & HX & Hy & Hres & _).
  apply regress_inv in Hr. destruct Hr as (p & _ & Hfit & _).
  exists (Logit._results m).
  unfold Logit.y_model, Logit.X_model, Logit.model_selection_stats,
    Logit.log_likelihood.
  split; [rewrite HX, Hy, Hres; exact Hfit | split; assumption].
Qed.

End Stored.

(** ** The table of standardized estimates and the standardized sample *)

Section Standardized.

Context {A : Type} `{Scalar A}.
Variable Logit_fit : Series A Z -> DataFrame A -> result (Results A).
Variable np_exp : A -> A.

Lemma align_to_labels (index : list string) (s : Series A string) :
  map fst (align_to index s) = index.
Proof.
  unfold align_to. rewrite map_map. cbn [fst]. apply map_id.
Qed.

Lemma stdev_column_labels (index : list string) (sd : Logit.Stdev A) :
  map fst (Logit.stdev_column index sd) = index.
Proof.
  destruct sd; cbn [Logit.stdev_column]; [|apply align_to_labels].
  rewrite map_map. cbn [fst]. apply map_id.
Qed.

Lemma standardize_table_inv (y0 : Series A Z) (r : Logit.RegressOut A)
      (s : Logit.StandardizeOut A) :
  Logit._standardize_results Logit_fit y0 r = Ok s ->
  exists results_obj,
    Logit_fit (Logit.ro_y_model r)
              (sm_add_constant_pandas (Logit.x_standardize (Logit.ro_X_model r)))
    = Ok results_obj /\
    Logit.so_results_output_standardized s
    = (let index :=
         Logit.index_after_assign
           (map fst (filter Logit.not_const (s_data (results_params results_obj))))
           (results_params (Logit.ro_results r)) in
       let coef := align_to index (results_params (Logit.ro_results r)) in
       let stdev_X := Logit.x_std (Logit.ro_X_model r) in
       let sd_fitted := pd_std (res_fittedvalues (Logit.ro_results r)) in
       Logit.mkStdTable (s_name y0) index
         (if negb (res_use_t results_obj)
          then ["coef"; "z"; "P>|z|"; "coef_stdX"; "coef_stdXy"; "stdev_X"]
          else ["coef"; "t"; "P>|t|"; "coef_stdX"; "coef_stdXy"; "stdev_X"])
         coef
         (align_to index (results_tvalues (Logit.ro_results r)))
         (align_to index (results_pvalues (Logit.ro_results r)))
         (align_to index (results_params results_obj))
         (map (fun c =>
                 (fst c,
                  s_div (s_mul (snd c) (Logit.stdev_at stdev_X (fst c)))
                        (s_sqrt (s_add (s_mul sd_fitted sd_fitted)
                                       (s_div (s_mul s_pi s_pi) (s_of_nat 3))))))
              coef)
         (Logit.stdev_column index stdev_X)
         "Unstandardized and Standardized Estimates").
Proof.
  unfold Logit._standardize_results. intros E.
  bind_inv E ro Hro. bind_inv E resid Hresid. bind_inv E ps Hps.
  injection E as <-. exists ro. split; [exact Hro|].
  apply series_drop_inv in Hps. destruct Hps as [_ Hps].
  assert (Hidx : s_index ps
                 = map fst (filter Logit.not_const (s_data (results_params ro))))
    by (unfold s_index; rewrite Hps; reflexivity).
  cbn [Logit.so_results_output_standardized]. cbv zeta. rewrite Hidx. reflexivity.
Qed.

(** The table of a constructed model, read off the two fits. *)
Lemma init_table (df : DataFrame A) (y_list regressors_list : list string)
      (a0 : pyobj A) (m : Logit.t A) :
  Logit.__init__ Logit_fit np_exp df y_list regressors_list a0 = Ok m ->
  exists results_obj,
    Logit_fit (Logit.y_model m)
              (sm_add_constant_pandas (Logit.X_model_standardized m))
    = Ok results_obj /\
    In "const" (s_index (results_params (Logit.results m))) /\
    Logit.X_model_standardized m = Logit.x_standardize (Logit.X_model m) /\
    Logit.results_output_standardized m
    = (let index :=
         Logit.index_after_assign
           (map fst (filter Logit.not_const (s_data (results_params results_obj))))
           (results_params (Logit.results m)) in
       let coef := align_to index (results_params (Logit.results m)) in
       let stdev_X := Logit.x_std (Logit.X_model m) in
       let sd_fitted := pd_std (res_fittedvalues (Logit.results m)) in
       Logit.mkStdTable (s_name (Logit.y m)) index
         (if negb (res_use_t results_obj)
          then ["coef"; "z"; "P>|z|"; "coef_stdX"; "coef_stdXy"; "stdev_X"]
          else ["coef"; "t"; "P>|t|"; "coef_stdX"; "coef_stdXy"; "stdev_X"])
         coef
         (align_to index (results_tvalues (Logit.results m)))
         (align_to index (results_pvalues (Logit.results m)))
         (align_to index (results_params results_obj))
         (map (fun c =>
                 (fst c,
                  s_div (s_mul (snd c) (Logit.stdev_at stdev_X (fst c)))
                        (s_sqrt (s_add (s_mul sd_fitted sd_fitted)
                                       (s_div (s_mul s_pi s_pi) (s_of_nat 3))))))
              coef)
         (Logit.stdev_column index stdev_X)
         "Unstandardized and Standardized Estimates").
Proof.
  intros E. apply init_inv in E.
  destruct E as (r & s & Hr & Hs & _ & HX & Hy & Hres & _ & HXs & _ & Htbl).
  apply regress_inv in Hr. destruct Hr as (p & _ & _ & Hdrop & _).
  apply series_drop_inv in Hdrop. destruct Hdrop as [Hconst _].
  pose proof (standardize_inv _ _ _ _ Hs) as (ro' & ps' & _ & _ & _ & HXs' & _).
  apply standardize_table_inv in Hs. destruct Hs as (ro & Hfit & Ht).
  exists ro.
  unfold Logit.results_output_standardized, Logit.y_model,
    Logit.X_model_standardized, Logit.results, Logit.X_model, Logit.y.
  rewrite Htbl, Ht, Hy, HXs, HXs', Hres, HX.
  repeat split; assumption.
Qed.

Lemma index_after_assign_cases (names : list string) (first : Series A string) :
  (names <> [] -> Logit.index_after_assign names first = names) /\
  (names = [] -> Logit.index_after_assign names first = s_index first).
Proof.
  destruct names; split; intros E; try reflexivity; congruence.
Qed.

Lemma not_const_names_lack_const (l : list (string * A)) :
  ~ In "const" (map fst (filter Logit.not_const l)).
Proof.
  intros Hin. apply in_map_iff in Hin. destruct Hin as (c & Hc & Hin).
  apply filter_In in Hin. destruct Hin as [_ Hne]. unfold Logit.not_const in Hne.
  rewrite Hc, String.eqb_refl in Hne. discriminate.
Qed.

(** X5.  In the table of standardized estimates of a constructed model,
    the index is the parameter names of the fit on the standardized
    sample without the constant; when that fit has no parameter but the
    constant (an empty regressor list), the frame is created without rows
    and takes the index of the first Series assigned to it, the parameter
    names of the raw fit, the constant among them.  Each of the six columns
    is labelled by exactly that index; the test-statistic and p-value
    columns are headed z and P>|z| unless the standardized fit used a t
    distribution; [coef], the statistic and the p-value come from the raw
    fit and [coef_stdX] from the standardized fit, each looked up under the
    name of its row. *)
Theorem standardized_table_layout
        (df : DataFrame A) (y_list regressors_list : list string)
        (a0 : pyobj A) (m : Logit.t A) :
  Logit.__init__ Logit_fit np_exp df y_list regressors_list a0 = Ok m ->
  let tbl := Logit.results_output_standardized m in
  exists results_obj,
    Logit_fit (Logit.y_model m)
              (sm_add_constant_pandas (Logit.X_model_standardized m))
    = Ok results_obj /\
    (let names := map fst (filter Logit.not_const
                             (s_data (results_params results_obj))) in
     (names <> [] ->
      Logit.tbl_index tbl = names /\ ~ In "const" (Logit.tbl_index tbl)) /\
     (names = [] ->
      Logit.tbl_index tbl = s_index (results_params (Logit.results m)) /\
      In "const" (Logit.tbl_index tbl))) /\
    (map fst (Logit.tbl_coef tbl) = Logit.tbl_index tbl /\
     map fst (Logit.tbl_stat tbl) = Logit.tbl_index tbl /\
     map fst (Logit.tbl_pvalue tbl) = Logit.tbl_index tbl /\
     map fst (Logit.tbl_coef_stdX tbl) = Logit.tbl_index tbl /\
     map fst (Logit.tbl_coef_stdXy tbl) = Logit.tbl_index tbl /\
     map fst (Logit.tbl_stdev_X tbl) = Logit.tbl_index tbl) /\
    Logit.tbl_columns tbl
    = (if res_use_t results_obj
       then ["coef"; "t"; "P>|t|"; "coef_stdX"; "coef_stdXy"; "stdev_X"]
       else ["coef"; "z"; "P>|z|"; "coef_stdX"; "coef_stdXy"; "stdev_X"]) /\
    (forall name v,
        (In (name, v) (Logit.tbl_coef tbl) ->
         v = assoc_or_nan name (s_data (results_params (Logit.results m)))) /\
        (In (name, v) (Logit.tbl_stat tbl) ->
         v = assoc_or_nan name (s_data (results_tvalues (Logit.results m)))) /\
        (In (name, v) (Logit.tbl_pvalue tbl) ->
         v = assoc_or_nan name (s_data (results_pvalues (Logit.results m)))) /\
        (In (name, v) (Logit.tbl_coef_stdX tbl) ->
         v = assoc_or_nan name (s_data (results_params results_obj)))).
Proof.
  intros E tbl. apply init_table in E.
  destruct E as (ro & Hfit & Hconst & _ & Ht).
  exists ro. unfold tbl. rewrite Ht. clear tbl Ht.
  cbn [Logit.tbl_index Logit.tbl_coef Logit.tbl_stat Logit.tbl_pvalue
       Logit.tbl_coef_stdX Logit.tbl_coef_stdXy Logit.tbl_stdev_X
       Logit.tbl_columns].
  split; [exact Hfit|]. split; [|split; [|split]].
  - cbv zeta. split; intros En.
    + rewrite (proj1 (index_after_assign_cases _ _) En).
      split; [reflexivity | apply not_const_names_lack_const].
    + rewrite (proj2 (index_after_assign_cases _ _) En).
      split; [reflexivity | exact Hconst].
  - rewrite map_map. cbn [fst].
    rewrite !align_to_labels, stdev_column_labels. repeat split; reflexivity.
  - destruct (res_use_t ro); reflexivity.
  - intros name v. repeat split; intros Hin; apply in_align_to in Hin; tauto.
Qed.

Lemma nth_map_seq {T : Type} (g : nat -> T) (k i : nat) (dflt : T) :
  i < k -> nth i (map g (seq 0 k)) dflt = g i.
Proof.
  intros Hi. rewrite (nth_indep _ dflt (g 0)) by (rewrite length_map, length_seq; lia).
  rewrite (map_nth g (seq 0 k) 0 i). rewrite seq_nth by lia. reflexivity.
Qed.

Lemma standardized_columns (x : XData A) :
  x_index (Logit.x_standardize x) = x_index x /\
  x_columns (Logit.x_standardize x) = x_columns x /\
  x_column_values (Logit.x_standardize x)
  = map (fun col => map (Logit.zscore (pd_mean col) (pd_std col)) col)
        (x_column_values x).
Proof.
  destruct x as [sx|d]; cbn [Logit.x_standardize x_index x_columns x_column_values].
  - unfold s_index, s_values. cbn [s_data s_name map].
    rewrite !map_map. cbn [fst snd]. repeat split.
  - unfold df_index, df_cols. cbn [df_rows df_columns].
    rewrite !map_map. cbn [fst]. repeat split.
    apply map_ext_in. intros i Hi. apply in_seq in Hi.
    unfold df_col. cbn [df_rows]. rewrite !map_map. cbn [snd].
    apply map_ext. intros row.
    rewrite nth_map_seq by lia. rewrite !nth_map_seq by lia. reflexivity.
Qed.

Lemma map_fst_filter_fst {T U : Type} (g : T -> bool) (f : U -> T) (l : list U) :
  map f (filter (fun c => g (f c)) l) = filter g (map f l).
Proof.
  induction l as [|c l IH]; [reflexivity|]. cbn [filter map].
  destruct (g (f c)); cbn [map]; rewrite IH; reflexivity.
Qed.

(** With a solver that names its parameters after its design columns, the
    parameters of a fit on a sample with an added constant, the constant
    apart, are named after the regressors of the sample. *)
Lemma design_names (y0 : Series A Z) (x : XData A) (res : Results A) :
  names_follow_design Logit_fit ->
  Logit_fit y0 (sm_add_constant_pandas x) = Ok res ->
  map fst (filter Logit.not_const (s_data (results_params res)))
  = filter (fun n => negb (String.eqb "const" n)) (x_columns x).
Proof.
  intros Hnames Hfit.
  change (filter Logit.not_const (s_data (results_params res)))
    with (filter (fun c : string * A => (fun n => negb (String.eqb "const" n)) (fst c))
                 (s_data (results_params res))).
  rewrite map_fst_filter_fst.
  assert (Hidx : map fst (s_data (results_params res))
                 = df_columns (sm_add_constant_pandas x)).
  { unfold results_params, wrap_columns. cbn [s_data].
    rewrite map_map. cbn [fst].
    transitivity (map fst (res_table res)); [reflexivity|].
    exact (Hnames _ _ _ Hfit). }
  rewrite Hidx.
  assert (Hframe : df_columns (x_as_frame x) = x_columns x)
    by (destruct x; reflexivity).
  unfold sm_add_constant_pandas.
  destruct (existsb is_nonzero_const (df_cols (x_as_frame x)));
    cbn [df_columns filter]; [rewrite Hframe; reflexivity|].
  rewrite String.eqb_refl. cbn [negb]. rewrite Hframe. reflexivity.
Qed.

(** What [coef_stdXy] holds, for any arithmetic: one entry per row of the
    table, computed from the raw coefficient and the standard deviation
    stored under the name of the row. *)
Lemma coef_stdXy_entries
      (df : DataFrame A) (y_list regressors_list : list string)
      (a0 : pyobj A) (m : Logit.t A) :
  Logit.__init__ Logit_fit np_exp df y_list regressors_list a0 = Ok m ->
  let tbl := Logit.results_output_standardized m in
  let sd := pd_std (res_fittedvalues (Logit.results m)) in
  let V := s_add (s_mul sd sd) (s_div (s_mul s_pi s_pi) (s_of_nat 3)) in
  let long name :=
    s_div (s_mul (assoc_or_nan name (s_data (results_params (Logit.results m))))
                 (Logit.stdev_at (Logit.x_std (Logit.X_model m)) name))
          (s_sqrt V) in
  exists results_obj,
    Logit_fit (Logit.y_model m)
              (sm_add_constant_pandas (Logit.X_model_standardized m))
    = Ok results_obj /\
    (forall name,
        In name (map fst (filter Logit.not_const
                            (s_data (results_params results_obj)))) ->
        In (name, long name) (Logit.tbl_coef_stdXy tbl)) /\
    (names_follow_design Logit_fit ->
     forall name,
       In name (x_columns (Logit.X_model m)) -> name <> "const" ->
       In (name, long name) (Logit.tbl_coef_stdXy tbl)) /\
    Logit.tbl_coef_stdXy tbl = map (fun name => (name, long name)) (Logit.tbl_index tbl).
Proof.
  intros E tbl sd V long. apply init_table in E.
  destruct E as (ro & Hfit & _ & HXs & Ht).
  exists ro. split; [exact Hfit|].
  assert (Hxy : Logit.tbl_coef_stdXy tbl
                = map (fun name => (name, long name)) (Logit.tbl_index tbl)).
  { unfold tbl. rewrite Ht. cbn [Logit.tbl_coef_stdXy Logit.tbl_index].
    unfold align_to. rewrite map_map. reflexivity. }
  assert (Hnames : forall name,
             In name (map fst (filter Logit.not_const (s_data (results_params ro)))) ->
             In (name, long name) (Logit.tbl_coef_stdXy tbl)).
  { intros name Hin. rewrite Hxy. apply in_map_iff. exists name.
    split; [reflexivity|]. unfold tbl. rewrite Ht. cbn [Logit.tbl_index].
    rewrite (proj1 (index_after_assign_cases _ _)); [exact Hin|].
    intros En. rewrite En in Hin. exact Hin. }
  split; [exact Hnames|]. split; [|exact Hxy].
  intros Hdesign name Hin Hne. apply Hnames.
  rewrite HXs in Hfit. rewrite (design_names _ _ _ Hdesign Hfit).
  rewrite (proj1 (proj2 (standardized_columns (Logit.X_model m)))).
  apply filter_In. split; [exact Hin|].
  destruct (String.eqb_spec "const" name); [congruence | reflexivity].
Qed.


Lemma existsb_eqb_absent (x : string) (l : list string) :
  ~ In x l -> existsb (String.eqb x) l = false.
Proof.
  intros N. destruct (existsb (String.eqb x) l) eqn:E; [|reflexivity].
  apply existsb_exists in E. destruct E as (z & Hz & Ez).
  apply String.eqb_eq in Ez. subst. contradiction.
Qed.

(** X15.  When a regressor of the aligned sample is the same nonzero
    number on every row, [sm.add_constant] adds no constant column; with a
    solver that names its parameters after the columns it is given, and no
    regressor called const, [_regress] then fails on
    [params.drop('const')] with a key error as soon as the solver returns. *)
Theorem regress_constant_regressor_key_error
        (X0 : XData A) (y0 : Series A Z) (a0 : pyobj A)
        (Xm : XData A) (ym : Series A Z) (res : Results A) :
  names_follow_design Logit_fit ->
  Logit.aligned_sample X0 y0 = Ok (Xm, ym) ->
  existsb is_nonzero_const (x_column_values Xm) = true ->
  ~ In "const" (x_columns Xm) ->
  Logit_fit ym (x_as_frame Xm) = Ok res ->
  Logit._regress Logit_fit np_exp X0 y0 a0 = Raise (KeyError "const").
Proof.
  intros Hnames Hal Hconst Hno Hfit. unfold Logit._regress. rewrite Hal.
  cbn [bind].
  assert (Hcols : df_cols (x_as_frame Xm) = x_column_values Xm).
  { destruct Xm as [sx|d]; [|reflexivity].
    unfold df_cols, df_col, s_values. cbn [x_as_frame df_columns df_rows
                                            List.length seq map x_column_values].
    rewrite map_map. reflexivity. }
  assert (Hframe : df_columns (x_as_frame Xm) = x_columns Xm)
    by (destruct Xm; reflexivity).
  unfold sm_add_constant_pandas. rewrite Hcols, Hconst, Hfit. cbn [bind].
  unfold series_drop.
  assert (Hidx : s_index (results_params res) = x_columns Xm).
  { unfold s_index, results_params, wrap_columns. cbn [s_data].
    rewrite map_map. cbn [fst].
    transitivity (map fst (res_table res)); [reflexivity|].
    rewrite (Hnames _ _ _ Hfit). exact Hframe. }
  rewrite Hidx, (existsb_eqb_absent "const" _ Hno). reflexivity.
Qed.

End Standardized.

(** ** Z-scores in exact arithmetic *)

Section ZScores.

Local Open Scope R_scope.

Lemma notna_real (l : list R) : notna l = l.
Proof.
  unfold notna. induction l as [|x l IH]; [reflexivity|].
  cbn [filter]. change (negb (s_isnan x)) with true. cbv iota.
  f_equal. exact IH.
Qed.

Lemma fold_Rplus_acc (l : list R) (a : R) :
  fold_left Rplus l a = a + fold_left Rplus l 0.
Proof.
  revert a. induction l as [|x l IH]; intros a; cbn [fold_left]; [lra|].
  rewrite (IH (a + x)), (IH (0 + x)). lra.
Qed.

Lemma s_sum_cons (x : R) (l : list R) : s_sum (x :: l) = x + s_sum l.
Proof.
  unfold s_sum. cbn [fold_left s_add s_zero real_scalar].
  rewrite fold_Rplus_acc. lra.
Qed.

Lemma s_sum_nil : s_sum (@nil R) = 0.
Proof. reflexivity. Qed.

Lemma sum_zscores (mu sd : R) (l : list R) :
  sd <> 0 ->
  s_sum (map (Logit.zscore mu sd) l)
  = (s_sum l - INR (List.length l) * mu) / sd.
Proof.
  intros Hsd. induction l as [|x l IH].
  - cbn [map List.length INR]. rewrite s_sum_nil. field. exact Hsd.
  - cbn [map]. rewrite !s_sum_cons, IH.
    change (List.length (x :: l)) with (S (List.length l)). rewrite S_INR.
    unfold Logit.zscore. cbn [s_div s_sub real_scalar]. field. exact Hsd.
Qed.

Lemma sum_squared_zscores (mu sd : R) (l : list R) :
  sd <> 0 ->
  s_sum (map (fun z => (z - 0) * (z - 0)) (map (Logit.zscore mu sd) l))
  = s_sum (map (fun x => (x - mu) * (x - mu)) l) / (sd * sd).
Proof.
  intros Hsd. induction l as [|x l IH].
  - cbn [map]. rewrite s_sum_nil. field. exact Hsd.
  - cbn [map]. rewrite !s_sum_cons, IH.
    unfold Logit.zscore. cbn [s_div s_sub real_scalar]. field. exact Hsd.
Qed.

Lemma pd_var_real (l : list R) :
  pd_var l
  = s_sum (map (fun x => (x - pd_mean l) * (x - pd_mean l)) l)
    / INR (List.length l - 1).
Proof.
  unfold pd_var. rewrite notna_real. reflexivity.
Qed.

Lemma pd_mean_real (l : list R) :
  pd_mean l = s_sum l / INR (List.length l).
Proof.
  unfold pd_mean. rewrite notna_real. reflexivity.
Qed.

Lemma zscores_mean_and_std (l : list R) :
  pd_var l <> 0 ->
  pd_mean (map (Logit.zscore (pd_mean l) (pd_std l)) l) = 0 /\
  pd_std (map (Logit.zscore (pd_mean l) (pd_std l)) l) = 1.
Proof.
  intros Hvar.
  assert (Hpos : 0 < pd_var l) by (pose proof (pd_var_nonneg l); lra).
  assert (Hsd : 0 < pd_std l).
  { unfold pd_std. cbn [s_sqrt real_scalar]. apply sqrt_lt_R0. exact Hpos. }
  assert (Hn1 : INR (List.length l - 1) <> 0).
  { intros E0. apply Hvar. rewrite pd_var_real, E0. apply Rdiv_0_r. }
  assert (Hn : INR (List.length l) <> 0).
  { apply not_0_INR. intros E0. apply Hn1. rewrite E0. reflexivity. }
  assert (Hmean : pd_mean (map (Logit.zscore (pd_mean l) (pd_std l)) l) = 0).
  { rewrite pd_mean_real, length_map, sum_zscores by lra.
    rewrite (pd_mean_real l). field. repeat split; first [assumption | lra]. }
  split; [exact Hmean|].
  unfold pd_std at 1. cbn [s_sqrt real_scalar].
  rewrite pd_var_real, Hmean, length_map, sum_squared_zscores by lra.
  replace (s_sum (map (fun x => (x - pd_mean l) * (x - pd_mean l)) l)
           / (pd_std l * pd_std l) / INR (List.length l - 1))
    with (pd_var l / (pd_std l * pd_std l))
    by (rewrite (pd_var_real l); field; repeat split; first [assumption | lra]).
  rewrite pd_std_squared.
  replace (pd_var l / pd_var l) with 1 by (field; exact Hvar).
  apply sqrt_1.
Qed.

Variable Logit_fit : Series R Z -> DataFrame R -> result (Results R).
Variable np_exp : R -> R.

(** X7.  In exact arithmetic, every column of the standardized regressors
    whose aligned column has a nonzero sample variance has mean 0 and
    sample standard deviation 1. *)
Theorem standardized_columns_mean_0_std_1
        (df : DataFrame R) (y_list regressors_list : list string)
        (a0 : pyobj R) (m : Logit.t R) (i : nat) (col : list R) :
  Logit.__init__ Logit_fit np_exp df y_list regressors_list a0 = Ok m ->
  nth_error (x_column_values (Logit.X_model m)) i = Some col ->
  pd_var col <> 0 ->
  exists zs,
    nth_error (x_column_values (Logit.X_model_standardized m)) i = Some zs /\
    pd_mean zs = 0 /\
    pd_std zs = 1.
Proof.
  intros E Hcol Hvar. apply init_inv in E.
  destruct E as (r & s & _ & Hs & _ & HX & _ & _ & _ & HXs & _).
  apply standardize_inv in Hs. destruct Hs as (ro & ps & _ & _ & _ & HXs' & _).
  unfold Logit.X_model_standardized, Logit.X_model in *.
  rewrite HXs, HXs'. rewrite HX in Hcol.
  destruct (standardized_columns (Logit.ro_X_model r)) as (_ & _ & Hz).
  rewrite Hz, nth_error_map, Hcol. cbn [option_map].
  eexists. split; [reflexivity|]. apply zscores_mean_and_std. exact Hvar.
Qed.

End ZScores.

(** ** The properties above on the concrete models *)

Lemma map_fst_combine {T U : Type} (l : list T) (l' : list U) :
  List.length l = List.length l' -> map fst (combine l l') = l.
Proof.
  revert l'. induction l as [|x l IH]; intros [|y l'] E; cbn in *;
    try reflexivity; try discriminate.
  f_equal. apply IH. lia.
Qed.

Lemma stub_fit_names {A : Type} `{Scalar A} :
  names_follow_design (Example.stub_fit (A := A)).
Proof.
  intros y0 X0 r. unfold Example.stub_fit.
  destruct (df_rows X0) as [|row rows] eqn:Hrows; [discriminate|].
  intros [= <-]. cbn [res_table]. rewrite map_map. cbn [fst].
  transitivity (map fst (combine (df_columns X0) (df_cols X0))); [reflexivity|].
  apply map_fst_combine. unfold df_cols. rewrite length_map, length_seq.
  reflexivity.
Qed.

Lemma model_selection_stats_witness :
  exists raw,
    Example.stub_fit (Logit.y_model (Example.cars_model Example.exp_stub))
      (sm_add_constant_pandas (Logit.X_model (Example.cars_model Example.exp_stub)))
    = Ok raw /\
    Logit.model_selection_stats (Example.cars_model Example.exp_stub)
    = [("Log-likelihood", res_llf raw);
       ("Pseudo R-squared", res_prsquared raw);
       ("AIC", res_aic raw);
       ("BIC", res_bic raw)] /\
    Logit.log_likelihood (Example.cars_model Example.exp_stub) = res_llf raw.
Proof.
  apply (model_selection_stats_of_raw_fit
           Example.stub_fit Example.exp_stub Example.cars ["vs"] ["wt"; "disp"]
           (PyFloat 0x1.999999999999ap-5%float)).
  vm_compute. reflexivity.
Defined.

Lemma standardized_table_witness :
  Logit.tbl_index
    (Logit.results_output_standardized (Example.trial_model Example.exp_stub))
  = ["a"; "b"; "c"] /\
  map fst (Logit.tbl_coef_stdXy
             (Logit.results_output_standardized
                (Example.trial_model Example.exp_stub)))
  = ["a"; "b"; "c"] /\
  Logit.tbl_columns
    (Logit.results_output_standardized (Example.trial_model Example.exp_stub))
  = ["coef"; "z"; "P>|z|"; "coef_stdX"; "coef_stdXy"; "stdev_X"].
Proof.
  destruct (standardized_table_layout
              Example.stub_fit Example.exp_stub Example.trial ["y"] ["a"; "b"; "c"]
              (PyFloat 0x1.999999999999ap-5%float)
              (Example.trial_model Example.exp_stub))
    as (ro & Hfit & Hnames & (_ & _ & _ & _ & Hxy & _) & Hcols & _);
    [vm_compute; reflexivity|].
  assert (Hro : ro = Example.or_else
                       (Example.stub_fit
                          (Logit.y_model (Example.trial_model Example.exp_stub))
                          (sm_add_constant_pandas
                             (Logit.X_model_standardized
                                (Example.trial_model Example.exp_stub))))
                       ro)
    by (rewrite Hfit; reflexivity).
  cbv zeta in Hnames. destruct Hnames as [Hne _].
  destruct Hne as [Hidx _]; [rewrite Hro; vm_compute; discriminate|].
  split; [|split].
  - rewrite Hidx, Hro. vm_compute. reflexivity.
  - rewrite Hxy, Hidx, Hro. vm_compute. reflexivity.
  - rewrite Hcols, Hro. vm_compute. reflexivity.
Defined.

(** Without any regressor the table has the one row of the constant, and
    its [coef_stdXy] is NaN. *)
Lemma standardized_table_without_regressors :
  is_ok (Logit.__init__ Example.stub_fit Example.exp_stub Example.cars ["vs"] []
                        (PyFloat 0x1.999999999999ap-5%float)) = true /\
  Logit.tbl_index (Logit.results_output_standardized Cases.cars_model_no_regressors)
  = ["const"] /\
  map (fun c => (fst c, PrimFloat.is_nan (snd c)))
      (Logit.tbl_coef_stdXy
         (Logit.results_output_standardized Cases.cars_model_no_regressors))
  = [("const", true)].
Proof.
  repeat split; vm_compute; reflexivity.
Qed.


Lemma regress_constant_regressor_witness :
  Logit._regress Example.stub_fit Example.exp_stub
    (Cases.regressors_of Cases.cars_four_cyl ["wt"; "cyl"])
    (Cases.outcome_of Cases.cars_four_cyl "vs")
    (PyFloat 0x1.999999999999ap-5%float)
  = Raise (KeyError "const").
Proof.
  eapply (regress_constant_regressor_key_error Example.stub_fit Example.exp_stub).
  - exact stub_fit_names.
  - vm_compute. reflexivity.
  - vm_compute. reflexivity.
  - vm_compute. intros [E|[E|[]]]; discriminate.
  - vm_compute. reflexivity.
Defined.

Lemma real_model_X_model :
  Logit.X_model Example.real_model
  = XFrame (mkDataFrame ["a"; "b"] [(0%Z, [0%R; 1%R]); (1%Z, [2%R; 0%R])]).
Proof.
  pose proof (init_sample _ _ _ _ _ _ _ real_model_constructed) as Hal.
  pose proof (init_data _ _ _ _ _ _ _ real_model_constructed)
    as ((yn & Hyl & Hy) & _ & HX & _).
  destruct HX as (d & HXd & Hd); [cbn; lia|].
  injection Hyl as <-.
  assert (Hd' : d = mkDataFrame ["a"; "b"] [(0%Z, [0%R; 1%R]); (1%Z, [2%R; 0%R])]).
  { change (df_getitem_list Example.real_table ["a"; "b"])
      with (Ok (mkDataFrame ["a"; "b"] [(0%Z, [0%R; 1%R]); (1%Z, [2%R; 0%R])]))
      in Hd.
    congruence. }
  assert (Hy' : Logit._y Example.real_model
                = mkSeries "y" [(0%Z, 0%R); (1%Z, 1%R)]).
  { change (df_getitem Example.real_table "y")
      with (Ok (mkSeries "y" [(0%Z, 0%R); (1%Z, 1%R)])) in Hy.
    congruence. }
  rewrite HXd, Hd', Hy' in Hal.
  change (Logit.aligned_sample _ _)
    with (Ok (XFrame (mkDataFrame ["a"; "b"]
                        [(0%Z, [0%R; 1%R]); (1%Z, [2%R; 0%R])]),
              mkSeries "y" [(0%Z, 0%R); (1%Z, 1%R)])) in Hal.
  unfold Logit.X_model. congruence.
Qed.

Lemma standardized_columns_real_witness :
  exists zs,
    nth_error (x_column_values (Logit.X_model_standardized Example.real_model)) 0
    = Some zs /\
    pd_mean zs = 0%R /\
    pd_std zs = 1%R.
Proof.
  apply (standardized_columns_mean_0_std_1
           Example.stub_fit exp Example.real_table ["y"] ["a"; "b"]
           (PyFloat (1 / 20)%R) Example.real_model 0 [0%R; 2%R]).
  - exact real_model_constructed.
  - rewrite real_model_X_model. reflexivity.
  - rewrite pd_var_pair. lra.
Defined.

(** ** Examples of a batch that lie in the training range *)

Section InRange.

Context {A : Type} `{Scalar A}.
Variable np_exp : A -> A.

Lemma forallb_zip_true (f : A -> A -> bool) (a b : list A) :
  List.length a = List.length b ->
  (forall j, j < List.length b -> f (nth j a s_nan) (nth j b s_nan) = true) ->
  forallb (fun x : bool => x) (Logit.zip_with f a b) = true.
Proof.
  unfold Logit.zip_with.
  revert b. induction a as [|x a IH]; intros [|y b]; cbn;
    try discriminate; try reflexivity.
  intros Hlen Hall. rewrite (Hall 0) by lia. cbn [andb].
  apply IH; [lia|]. intros j Hj. apply (Hall (S j)). lia.
Qed.

Lemma predict_batch_unchecked (m : Logit.t A) (d : DataFrame A)
      (rows : list (list A)) :
  Logit.X_model m = XFrame d ->
  Logit.predict np_exp m
    (NdArray (Arr2 (List.length (df_columns d)) rows)) false
  = (exog <- sm_add_constant_numpy (Arr2 (List.length (df_columns d)) rows) ;;
     Logit.results_predict np_exp (Logit.results m) exog).
Proof.
  unfold Logit.X_model, Logit.results, Logit.predict. intros ->.
  cbn [x_shape_1 bind to_numpy]. rewrite Nat.eqb_refl. cbn [negb].
  destruct (sm_add_constant_numpy _); cbn [bind]; [|reflexivity].
  destruct (Logit.results_predict _ _ _); reflexivity.
Qed.

(** X12.  In a batch predicted with [within_sample=True], an example all
    of whose values lie in the closed training range of their regressors
    keeps the prediction it gets with [within_sample=False]. *)
Theorem predict_batch_keeps_in_range
        (m : Logit.t A) (d : DataFrame A) (rows : list (list A))
        (preds : list A) (i : nat) (row : list A) :
  Logit.X_model m = XFrame d ->
  Logit.predict np_exp m
    (NdArray (Arr2 (List.length (df_columns d)) rows)) true = Ok preds ->
  nth_error rows i = Some row ->
  List.length row = List.length (df_columns d) ->
  (forall j, j < List.length row -> in_training_range (XFrame d) row j = true) ->
  exists unchecked,
    Logit.predict np_exp m
      (NdArray (Arr2 (List.length (df_columns d)) rows)) false = Ok unchecked /\
    nth_error preds i = nth_error unchecked i.
Proof.
  intros HX E Hrow Hlen Hin.
  rewrite (predict_batch_mask np_exp m d rows HX) in E.
  rewrite (predict_batch_unchecked m d rows HX).
  bind_inv E exog Hexog. bind_inv E preds0 Hp0. rewrite Hexog. cbn [bind].
  exists preds0. split; [exact Hp0|].
  apply np_where_nan_vec in E. destruct E as [Hmask ->].
  rewrite length_map in Hmask.
  assert (Hi : i < List.length preds0).
  { rewrite <- Hmask. apply nth_error_Some. congruence. }
  destruct (nth_error preds0 i) as [p|] eqn:Hp;
    [|apply nth_error_None in Hp; lia].
  rewrite (nth_error_zip_with _ _ _ i true p); [reflexivity| |exact Hp].
  rewrite nth_error_map, Hrow. cbn [option_map]. f_equal.
  apply forallb_zip_true.
  - rewrite x_min_length. congruence.
  - intros j Hj. specialize (Hin j Hj). unfold in_training_range in Hin.
    apply andb_true_iff in Hin. tauto.
Qed.

End InRange.

Lemma predict_batch_in_range_witness :
  exists unchecked,
    Logit.predict Example.exp_stub (Example.cars_model Example.exp_stub)
      (NdArray (Arr2 2 [[2.5%float; 180%float]; [1%float; 200%float]])) false
    = Ok unchecked /\
    nth_error [Logit.logit_cdf Example.exp_stub 28807.5625%float; nan] 0
    = nth_error unchecked 0.
Proof.
  apply (predict_batch_keeps_in_range
           Example.exp_stub (Example.cars_model Example.exp_stub)
           (mkDataFrame ["wt"; "disp"]
              [(0%Z, [2.625%float; 160%float]); (1%Z, [2.875%float; 160%float]);
               (2%Z, [2.25%float; 108%float]); (3%Z, [3.25%float; 258%float]);
               (4%Z, [3.5%float; 360%float])])
           [[2.5%float; 180%float]; [1%float; 200%float]]
           [Logit.logit_cdf Example.exp_stub 28807.5625%float; nan]
           0 [2.5%float; 180%float]);
    try (vm_compute; reflexivity).
  intros [|[|j]] Hj; try (vm_compute; reflexivity). cbn in Hj. lia.
Defined.

(** ** Long's standardization and the odds ratios, in both arithmetics *)

(** C7.  For every constructed model, over binary64 as over the reals:
    [coef_stdXy] has one entry per row of the table, and the entry of a
    row is the raw coefficient of that name times the sample standard
    deviation of that name, divided by [sqrt V], where [V] is the SQUARE OF
    THE SAMPLE STANDARD DEVIATION of the raw fit's fitted linear predictor
    plus [pi^2 / 3], computed in this order.  Every parameter of the fit on
    the standardized sample other than the constant has such an entry, and
    with a solver that names its parameters after its design columns so
    has every regressor of the aligned sample not named const.  In exact
    arithmetic the square of the standard deviation is the sample
    variance, and [V] is the variance plus [pi^2 / 3]. *)
Theorem coef_stdXy_is_long_standardized :
  (forall (A : Type) (SA : Scalar A)
          (Logit_fit : Series A Z -> DataFrame A -> result (Results A))
          (np_exp : A -> A)
          (df : DataFrame A) (y_list regressors_list : list string)
          (a0 : pyobj A) (m : Logit.t A),
      Logit.__init__ Logit_fit np_exp df y_list regressors_list a0 = Ok m ->
      let tbl := Logit.results_output_standardized m in
      let sd := pd_std (res_fittedvalues (Logit.results m)) in
      let V := s_add (s_mul sd sd) (s_div (s_mul s_pi s_pi) (s_of_nat 3)) in
      let long name :=
        s_div (s_mul (assoc_or_nan name (s_data (results_params (Logit.results m))))
                     (Logit.stdev_at (Logit.x_std (Logit.X_model m)) name))
              (s_sqrt V) in
      exists results_obj,
        Logit_fit (Logit.y_model m)
                  (sm_add_constant_pandas (Logit.X_model_standardized m))
        = Ok results_obj /\
        (forall name,
            In name (map fst (filter Logit.not_const
                                (s_data (results_params results_obj)))) ->
            In (name, long name) (Logit.tbl_coef_stdXy tbl)) /\
        (names_follow_design Logit_fit ->
         forall name,
           In name (x_columns (Logit.X_model m)) -> name <> "const" ->
           In (name, long name) (Logit.tbl_coef_stdXy tbl)) /\
        Logit.tbl_coef_stdXy tbl
        = map (fun name => (name, long name)) (Logit.tbl_index tbl))
  /\
  (forall (Logit_fit : Series R Z -> DataFrame R -> result (Results R))
          (np_exp : R -> R)
          (df : DataFrame R) (y_list regressors_list : list string)
          (a0 : pyobj R) (m : Logit.t R),
      Logit.__init__ Logit_fit np_exp df y_list regressors_list a0 = Ok m ->
      let tbl := Logit.results_output_standardized m in
      let V := (pd_var (res_fittedvalues (Logit.results m)) + PI * PI / 3)%R in
      Logit.tbl_coef_stdXy tbl
      = map (fun name =>
               (name,
                (assoc_or_nan name (s_data (results_params (Logit.results m)))
                 * Logit.stdev_at (Logit.x_std (Logit.X_model m)) name
                 / R_sqrt.sqrt V)%R))
            (Logit.tbl_index tbl)).
Proof.
  split.
  - intros A SA Logit_fit np_exp df y_list regressors_list a0 m E.
    exact (coef_stdXy_entries Logit_fit np_exp df y_list regressors_list a0 m E).
  - intros Logit_fit np_exp df y_list regressors_list a0 m E tbl V.
    destruct (coef_stdXy_entries Logit_fit np_exp df y_list regressors_list a0 m E)
      as (ro & _ & _ & _ & Hxy).
    unfold tbl. rewrite Hxy. apply map_ext. intros name.
    rewrite var_ystar_real. reflexivity.
Qed.

Lemma coef_stdXy_witness :
  (let m := Example.trial_model Example.exp_stub in
   let sd := pd_std (res_fittedvalues (Logit.results m)) in
   Logit.tbl_coef_stdXy (Logit.results_output_standardized m)
   = map (fun name =>
            (name,
             s_div (s_mul (assoc_or_nan name (s_data (results_params (Logit.results m))))
                          (Logit.stdev_at (Logit.x_std (Logit.X_model m)) name))
                   (s_sqrt (s_add (s_mul sd sd)
                                  (s_div (s_mul s_pi s_pi) (s_of_nat 3))))))
         (Logit.tbl_index (Logit.results_output_standardized m)))
  /\
  Logit.tbl_coef_stdXy (Logit.results_output_standardized Example.real_model)
  = map (fun name =>
           (name,
            (assoc_or_nan name
               (s_data (results_params (Logit.results Example.real_model)))
             * Logit.stdev_at (Logit.x_std (Logit.X_model Example.real_model)) name
             / R_sqrt.sqrt
                 (pd_var (res_fittedvalues (Logit.results Example.real_model))
                  + PI * PI / 3))%R))
        (Logit.tbl_index (Logit.results_output_standardized Example.real_model)).
Proof.
  split.
  - destruct (proj1 coef_stdXy_is_long_standardized float float_scalar
                Example.stub_fit Example.exp_stub Example.trial
                ["y"] ["a"; "b"; "c"] (PyFloat 0x1.999999999999ap-5%float)
                (Example.trial_model Example.exp_stub))
      as (ro & _ & _ & _ & Hxy); [vm_compute; reflexivity | exact Hxy].
  - exact (proj2 coef_stdXy_is_long_standardized
             Example.stub_fit exp Example.real_table ["y"] ["a"; "b"]
             (PyFloat (1 / 20)%R) Example.real_model real_model_constructed).
Defined.

(** In binary64 the entry is not the value of the formula with the sample
    variance.  On [Cases.pairs] the fitted values are 2 and 5; their
    variance is 4.5, the square of their standard deviation is
    4.499999999999999, and the stored [coef_stdXy] of [b] differs from the
    variance formula in the last place. *)
Lemma coef_stdXy_binary64_differs_from_variance_formula :
  let m := Cases.pairs_model in
  let fitted := res_fittedvalues (Logit.results m) in
  let coef := assoc_or_nan "b" (s_data (results_params (Logit.results m))) in
  let stdev := Logit.stdev_at (Logit.x_std (Logit.X_model m)) "b" in
  let stored := assoc_or_nan "b" (Logit.tbl_coef_stdXy
                                    (Logit.results_output_standardized m)) in
  let claimed :=
    s_div (s_mul coef stdev)
          (s_sqrt (s_add (pd_var fitted) (s_div (s_mul s_pi s_pi) (s_of_nat 3)))) in
  Logit.__init__ Example.stub_fit Example.exp_stub Cases.pairs ["y"] ["a"; "b"]
                 (PyFloat 0x1.999999999999ap-5%float) = Ok m /\
  fitted = [2%float; 5%float] /\
  pd_var fitted = 4.5%float /\
  s_mul (pd_std fitted) (pd_std fitted) = 0x1.1ffffffffffffp+2%float /\
  coef = 1%float /\
  stdev = 0x1.0f876ccdf6cd9p+1%float /\
  stored = 0x1.85250db2d3a7fp-1%float /\
  claimed = 0x1.85250db2d3a7ep-1%float /\
  PrimFloat.eqb stored claimed = false.
Proof.
  repeat split; vm_compute; reflexivity.
Qed.

(** C8.  For every constructed model, over binary64 as over the reals and
    whatever [np.exp] computes: the odds ratios are the values of [np.exp]
    at the raw coefficients other than the constant, each under its
    regressor's name, in the order of the parameters; there is no entry for
    the constant.  In exact arithmetic, with the real exponential, the
    logarithm of every odds ratio is the raw coefficient. *)
Theorem odds_ratios_are_exp_of_raw_coefficients :
  (forall (A : Type) (SA : Scalar A)
          (Logit_fit : Series A Z -> DataFrame A -> result (Results A))
          (np_exp : A -> A)
          (df : DataFrame A) (y_list regressors_list : list string)
          (a0 : pyobj A) (m : Logit.t A),
      Logit.__init__ Logit_fit np_exp df y_list regressors_list a0 = Ok m ->
      let raw := filter Logit.not_const
                        (s_data (results_params (Logit.results m))) in
      s_data (Logit.odds_ratios m) = map (fun c => (fst c, np_exp (snd c))) raw /\
      s_index (Logit.odds_ratios m) = map fst raw /\
      ~ In "const" (s_index (Logit.odds_ratios m)) /\
      (forall name c,
          In (name, c) (s_data (results_params (Logit.results m))) ->
          name <> "const" ->
          In (name, np_exp c) (s_data (Logit.odds_ratios m))))
  /\
  (forall (Logit_fit : Series R Z -> DataFrame R -> result (Results R))
          (df : DataFrame R) (y_list regressors_list : list string)
          (a0 : pyobj R) (m : Logit.t R),
      Logit.__init__ Logit_fit exp df y_list regressors_list a0 = Ok m ->
      map ln (s_values (Logit.odds_ratios m))
      = map snd (filter Logit.not_const
                        (s_data (results_params (Logit.results m))))).
Proof.
  split.
  - intros A SA Logit_fit np_exp df y_list regressors_list a0 m E.
    exact (odds_ratios_of_raw_fit Logit_fit np_exp df y_list regressors_list a0 m E).
  - intros Logit_fit df y_list regressors_list a0 m E.
    destruct (odds_ratios_of_raw_fit Logit_fit exp df y_list regressors_list a0 m E)
      as (Hd & _).
    unfold s_values. rewrite Hd, !map_map. cbn [snd].
    apply map_ext. intros c. apply ln_exp.
Qed.

Lemma odds_ratios_witness :
  s_data (Logit.odds_ratios (Example.trial_model Example.exp_stub))
  = map (fun c => (fst c, Example.exp_stub (snd c)))
        (filter Logit.not_const
                (s_data (results_params
                           (Logit.results (Example.trial_model Example.exp_stub)))))
  /\
  map ln (s_values (Logit.odds_ratios Example.real_model))
  = map snd (filter Logit.not_const
                    (s_data (results_params (Logit.results Example.real_model)))).
Proof.
  split.
  - destruct (proj1 odds_ratios_are_exp_of_raw_coefficients float float_scalar
                Example.stub_fit Example.exp_stub Example.trial
                ["y"] ["a"; "b"; "c"] (PyFloat 0x1.999999999999ap-5%float)
                (Example.trial_model Example.exp_stub))
      as (Hd & _); [vm_compute; reflexivity | exact Hd].
  - exact (proj2 odds_ratios_are_exp_of_raw_coefficients
             Example.stub_fit Example.real_table ["y"] ["a"; "b"]
             (PyFloat (1 / 20)%R) Example.real_model real_model_constructed).
Defined.

(** In binary64 the logarithm of an odds ratio need not be the raw
    coefficient.  On [Cases.steep] the coefficients are 1000 and -1000;
    their exponentials are [inf] and [0.0], whose logarithms are [inf] and
    [-inf]. *)
Lemma odds_ratios_binary64_round_trip_fails :
  let m := Cases.steep_model in
  let raw := filter Logit.not_const (s_data (results_params (Logit.results m))) in
  Logit.__init__ Example.stub_fit Cases.np_exp_at_ends Cases.steep ["y"] ["a"; "b"]
                 (PyFloat 0x1.999999999999ap-5%float) = Ok m /\
  raw = [("a", 1000%float); ("b", (-1000)%float)] /\
  s_data (Logit.odds_ratios m) = [("a", infinity); ("b", 0%float)] /\
  map Cases.np_log_at_ends (s_values (Logit.odds_ratios m))
  = [infinity; neg_infinity] /\
  Logit.zip_with PrimFloat.eqb
                 (map Cases.np_log_at_ends (s_values (Logit.odds_ratios m)))
                 (map snd raw)
  = [false; false].
Proof.
  repeat split; vm_compute; reflexivity.
Qed.
